(** * ros2-porting-heuristics: a shallow embedding and its properties

    The development follows [ros2-porting-heuristics.py]:
    - [Re]: the fragment of Python's [re] the script's patterns use,
      over byte strings;
    - one module per [LinePlugin] subclass (state record, [line_cb],
      [finish]) and the closed sum [plugin] that stands for a list of
      plugin objects;
    - [Scanner]: the body of the per-package loop of [main].

    Python [bytes] and Python [str] are both modelled by [string] (a
    sequence of 8-bit characters; a [str] by its UTF-8 bytes).  Python
    [int] is [Z].  Objects mutated in place become state passing. *)

From Stdlib Require Import ZArith Ascii String DecimalString DecimalZ DecimalPos Sorted.
From stdpp Require Import base list strings gmap.

Local Open Scope Z_scope.
Local Open Scope string_scope.

(** ** [divide_round_up] (line 26)

    Python's [//] is floor division, as is [Z.div].  Every call site
    passes a literal positive divisor (1000, 500, 2). *)
Definition divide_round_up (n d : Z) : Z := (n + (d - 1)) / d.

(** ** [class File] (line 30) *)
Record File := mkFile { name : string; lines : Z }.

(** ** Regular expressions

    The patterns compiled by the script are sequences of literals, one
    [.*] and one [$], some with [re.IGNORECASE].  [search] is
    [re.search(pattern, line) is not None]. *)
Module Re.

Inductive atom :=
| Lit (s : string)   (* a run of literal bytes *)
| DotStar            (* [.*]: any bytes but newline *)
| Eol.               (* [$]: at the end, or before a final newline *)

Record regex := Regex { atoms : list atom; ignorecase : bool }.

Definition newline : ascii := ascii_of_nat 10.

Definition is_upper (c : ascii) : bool :=
  ((65 <=? nat_of_ascii c) && (nat_of_ascii c <=? 90))%nat.

(** ASCII-only case folding, as [re.IGNORECASE] does on bytes patterns. *)
Definition lower (c : ascii) : ascii :=
  if is_upper c then ascii_of_nat (nat_of_ascii c + 32) else c.

Definition byte_eqb (ic : bool) (a b : ascii) : bool :=
  if ic then Ascii.eqb (lower a) (lower b) else Ascii.eqb a b.

(** [strip ic p s] is [Some r] when the literal [p] matches at the
    start of [s], leaving [r]. *)
Fixpoint strip (ic : bool) (p s : string) : option string :=
  match p with
  | EmptyString => Some s
  | String a p' =>
      match s with
      | EmptyString => None
      | String b s' => if byte_eqb ic a b then strip ic p' s' else None
      end
  end.

Definition at_eol (s : string) : bool :=
  match s with
  | EmptyString => true
  | String c EmptyString => Ascii.eqb c newline
  | _ => false
  end.

(** Does the atom sequence match at the start of [s]? *)
Fixpoint match_here (ic : bool) (r : list atom) : string -> bool :=
  match r with
  | [] => fun _ => true
  | Lit p :: r' =>
      fun s => match strip ic p s with
               | Some s' => match_here ic r' s'
               | None => false
               end
  | DotStar :: r' =>
      fix star (s : string) : bool :=
        match_here ic r' s
        || match s with
           | EmptyString => false
           | String c s' => negb (Ascii.eqb c newline) && star s'
           end
  | Eol :: r' => fun s => at_eol s && match_here ic r' s
  end.

Fixpoint search_from (ic : bool) (r : list atom) (s : string) : bool :=
  match_here ic r s
  || match s with
     | EmptyString => false
     | String _ s' => search_from ic r s'
     end.

Definition search (re : regex) (line : string) : bool :=
  search_from (ignorecase re) (atoms re) line.

Definition compile (p : string) : regex := Regex [Lit p] false.

End Re.

(** ** The plugins for C and C++ files *)

(** [class RosCPPFileLinePlugin] (line 48) *)
Module RosCPPFileLinePlugin.
Record t := mk { rosfile : bool }.

Definition roscpp_using_re := Re.compile "using namespace ros".
Definition roscpp_namespace_re := Re.compile "ros::".

Definition init : t := mk false.

Definition line_cb (self : t) (line : string) : t :=
  if rosfile self then self
  else if Re.search roscpp_using_re line then mk true
  else if Re.search roscpp_namespace_re line then mk true
  else self.

Definition finish (self : t) (f : File) : Z :=
  if negb (rosfile self) then 0 else divide_round_up (lines f) 1000.
End RosCPPFileLinePlugin.

(** [class RosCPPUsingTFLinePlugin] (line 78) *)
Module RosCPPUsingTFLinePlugin.
Record t := mk { uses_tf : bool; uses_tf2_ros : bool }.

Definition tf_using_re := Re.compile "tf::".
Definition tf2_using_re := Re.compile "tf2_ros::".

Definition init : t := mk false false.

Definition line_cb (self : t) (line : string) : t :=
  if uses_tf self && uses_tf2_ros self then self
  else if Re.search tf_using_re line then mk true (uses_tf2_ros self)
  else if Re.search tf2_using_re line then mk (uses_tf self) true
  else self.

Definition finish (self : t) (f : File) : Z :=
  if negb (uses_tf self) then 0
  else if uses_tf2_ros self then 0
  else 2.
End RosCPPUsingTFLinePlugin.

(** [class RosCPPUsingDynamicReconfigurePlugin] (line 113) *)
Module RosCPPUsingDynamicReconfigurePlugin.
Record t := mk { uses_dynamic_reconfigure : bool }.

Definition dynamic_reconfigure_re := Re.compile "dynamic_reconfigure::".

Definition init : t := mk false.

Definition line_cb (self : t) (line : string) : t :=
  if uses_dynamic_reconfigure self then self
  else if Re.search dynamic_reconfigure_re line then mk true
  else self.

Definition finish (self : t) (f : File) : Z :=
  if negb (uses_dynamic_reconfigure self) then 0 else 2.
End RosCPPUsingDynamicReconfigurePlugin.

(** [class RosCPPActionServerPlugin] (line 138) *)
Module RosCPPActionServerPlugin.
Record t := mk { uses_action_server : bool }.

Definition action_server_re :=
  Re.Regex [Re.Lit "actionlib::"; Re.DotStar; Re.Lit "Server"] true.

Definition init : t := mk false.

Definition line_cb (self : t) (line : string) : t :=
  if uses_action_server self then self
  else if Re.search action_server_re line then mk true
  else self.

Definition finish (self : t) (f : File) : Z :=
  if negb (uses_action_server self) then 0 else 2.
End RosCPPActionServerPlugin.

(** ** The plugins for Python files *)

(** [class RosPyFileLinePlugin] (line 163) *)
Module RosPyFileLinePlugin.
Record t := mk { rosfile : bool }.

Definition rospy_re := Re.compile "rospy".

Definition init : t := mk false.

Definition line_cb (self : t) (line : string) : t :=
  if rosfile self then self
  else if Re.search rospy_re line then mk true
  else self.

Definition finish (self : t) (f : File) : Z :=
  if negb (rosfile self) then 0 else divide_round_up (lines f) 500.
End RosPyFileLinePlugin.

(** [class RosPyUsingTFLinePlugin] (line 190) *)
Module RosPyUsingTFLinePlugin.
Record t := mk { uses_tf : bool }.

Definition tf_import_re := Re.Regex [Re.Lit "import tf"; Re.Eol] false.
Definition tf_conversions_import_re := Re.compile "from tf_conversions import".

Definition init : t := mk false.

Definition line_cb (self : t) (line : string) : t :=
  if uses_tf self then self
  else if Re.search tf_import_re line then mk true
  else if Re.search tf_conversions_import_re line then mk true
  else self.

Definition finish (self : t) (f : File) : Z :=
  if negb (uses_tf self) then 0 else 2.
End RosPyUsingTFLinePlugin.

(** [class RosPyActionServerLinePlugin] (line 221) *)
Module RosPyActionServerLinePlugin.
Record t := mk { uses_action_server : bool }.

Definition action_server_re :=
  Re.Regex [Re.Lit "actionlib"; Re.DotStar; Re.Lit "Server"] true.

Definition init : t := mk false.

Definition line_cb (self : t) (line : string) : t :=
  if uses_action_server self then self
  else if Re.search action_server_re line then mk true
  else self.

Definition finish (self : t) (f : File) : Z :=
  if negb (uses_action_server self) then 0 else 2.
End RosPyActionServerLinePlugin.

(** ** The plugin for launch files *)

(** [class RosLaunchTestLinePlugin] (line 246) *)
Module RosLaunchTestLinePlugin.
Record t := mk { uses_rostest : bool }.

Definition launch_test_re := Re.Regex [Re.Lit "<test"] true.

Definition init : t := mk false.

Definition line_cb (self : t) (line : string) : t :=
  if uses_rostest self then self
  else if Re.search launch_test_re line then mk true
  else self.

Definition finish (self : t) (f : File) : Z :=
  if negb (uses_rostest self) then 0 else 1.
End RosLaunchTestLinePlugin.

(** ** [class LinePlugin] (line 38): the objects a [plugins] list holds

    The base class only raises; the eight subclasses are the closed set
    of variants, and a method call dispatches on the variant. *)
Inductive plugin :=
| CPPFile (p : RosCPPFileLinePlugin.t)
| CPPUsingTF (p : RosCPPUsingTFLinePlugin.t)
| CPPUsingDynamicReconfigure (p : RosCPPUsingDynamicReconfigurePlugin.t)
| CPPActionServer (p : RosCPPActionServerPlugin.t)
| PyFile (p : RosPyFileLinePlugin.t)
| PyUsingTF (p : RosPyUsingTFLinePlugin.t)
| PyActionServer (p : RosPyActionServerLinePlugin.t)
| LaunchTest (p : RosLaunchTestLinePlugin.t).

Definition line_cb (pl : plugin) (line : string) : plugin :=
  match pl with
  | CPPFile p => CPPFile (RosCPPFileLinePlugin.line_cb p line)
  | CPPUsingTF p => CPPUsingTF (RosCPPUsingTFLinePlugin.line_cb p line)
  | CPPUsingDynamicReconfigure p =>
      CPPUsingDynamicReconfigure (RosCPPUsingDynamicReconfigurePlugin.line_cb p line)
  | CPPActionServer p => CPPActionServer (RosCPPActionServerPlugin.line_cb p line)
  | PyFile p => PyFile (RosPyFileLinePlugin.line_cb p line)
  | PyUsingTF p => PyUsingTF (RosPyUsingTFLinePlugin.line_cb p line)
  | PyActionServer p => PyActionServer (RosPyActionServerLinePlugin.line_cb p line)
  | LaunchTest p => LaunchTest (RosLaunchTestLinePlugin.line_cb p line)
  end.

Definition finish (pl : plugin) (f : File) : Z :=
  match pl with
  | CPPFile p => RosCPPFileLinePlugin.finish p f
  | CPPUsingTF p => RosCPPUsingTFLinePlugin.finish p f
  | CPPUsingDynamicReconfigure p => RosCPPUsingDynamicReconfigurePlugin.finish p f
  | CPPActionServer p => RosCPPActionServerPlugin.finish p f
  | PyFile p => RosPyFileLinePlugin.finish p f
  | PyUsingTF p => RosPyUsingTFLinePlugin.finish p f
  | PyActionServer p => RosPyActionServerLinePlugin.finish p f
  | LaunchTest p => RosLaunchTestLinePlugin.finish p f
  end.

(** The flags a plugin object holds, in [__slots__] order. *)
Definition flags (pl : plugin) : list bool :=
  match pl with
  | CPPFile p => [RosCPPFileLinePlugin.rosfile p]
  | CPPUsingTF p =>
      [RosCPPUsingTFLinePlugin.uses_tf p; RosCPPUsingTFLinePlugin.uses_tf2_ros p]
  | CPPUsingDynamicReconfigure p =>
      [RosCPPUsingDynamicReconfigurePlugin.uses_dynamic_reconfigure p]
  | CPPActionServer p => [RosCPPActionServerPlugin.uses_action_server p]
  | PyFile p => [RosPyFileLinePlugin.rosfile p]
  | PyUsingTF p => [RosPyUsingTFLinePlugin.uses_tf p]
  | PyActionServer p => [RosPyActionServerLinePlugin.uses_action_server p]
  | LaunchTest p => [RosLaunchTestLinePlugin.uses_rostest p]
  end.

(** The patterns a plugin class compiles, in declaration order. *)
Definition patterns (pl : plugin) : list Re.regex :=
  match pl with
  | CPPFile _ =>
      [RosCPPFileLinePlugin.roscpp_using_re; RosCPPFileLinePlugin.roscpp_namespace_re]
  | CPPUsingTF _ =>
      [RosCPPUsingTFLinePlugin.tf_using_re; RosCPPUsingTFLinePlugin.tf2_using_re]
  | CPPUsingDynamicReconfigure _ =>
      [RosCPPUsingDynamicReconfigurePlugin.dynamic_reconfigure_re]
  | CPPActionServer _ => [RosCPPActionServerPlugin.action_server_re]
  | PyFile _ => [RosPyFileLinePlugin.rospy_re]
  | PyUsingTF _ =>
      [RosPyUsingTFLinePlugin.tf_import_re; RosPyUsingTFLinePlugin.tf_conversions_import_re]
  | PyActionServer _ => [RosPyActionServerLinePlugin.action_server_re]
  | LaunchTest _ => [RosLaunchTestLinePlugin.launch_test_re]
  end.

(** The three [plugins = [...]] lists of [main] (lines 356, 367, 383). *)
Definition cpp_plugins : list plugin :=
  [CPPFile RosCPPFileLinePlugin.init; CPPUsingTF RosCPPUsingTFLinePlugin.init;
   CPPUsingDynamicReconfigure RosCPPUsingDynamicReconfigurePlugin.init;
   CPPActionServer RosCPPActionServerPlugin.init].

Definition py_plugins : list plugin :=
  [PyFile RosPyFileLinePlugin.init; PyUsingTF RosPyUsingTFLinePlugin.init;
   PyActionServer RosPyActionServerLinePlugin.init].

Definition launch_plugins : list plugin :=
  [LaunchTest RosLaunchTestLinePlugin.init].

(** [for line in infp: for plugin in plugins: plugin.line_cb(line)] *)
Definition feed (plugins : list plugin) (content : list string) : list plugin :=
  fold_left (fun ps line => map (fun p => line_cb p line) ps) content plugins.

(** One plugin object shown the lines of a file in order. *)
Definition observe (pl : plugin) (content : list string) : plugin :=
  fold_left line_cb content pl.

(** [for plugin in plugins: score += plugin.finish(f)] *)
Definition finish_all (score : Z) (plugins : list plugin) (f : File) : Z :=
  fold_left (fun sc p => sc + finish p f) plugins score.

(** The body of one of the three per-file loops: fresh plugins, one pass
    over the file, then the penalties added to the running score. *)
Definition scan_file (fresh : list plugin) (read : string -> list string)
    (score : Z) (f : File) : Z :=
  finish_all score (feed fresh (read (name f))) f.

Definition scan_files (fresh : list plugin) (read : string -> list string)
    (score : Z) (files : list File) : Z :=
  fold_left (scan_file fresh read) files score.

(** ** [main] (line 271): the per-package loop

    What the script reads from outside is an input of the model: the
    children of the manifest's root element as [lxml] yields them, the
    [/results/files] elements of the pygount report with their children,
    whether [CATKIN_IGNORE] exists, and the lines of every source file.
    Failures that abort the run (malformed XML, an unreadable file, a
    [code] attribute that is not a number) are outside the model. *)
Module Scanner.

(** A child of an element: an element with its tag and [text] ([None]
    for an empty element), or a comment or processing instruction,
    whose [tag] equals no string. *)
Inductive xml_child :=
| Element (tag : string) (text : option string)
| NonElement.

(** A child of the [files] element of the pygount report; for a [file]
    element its [language], [name] and [int(code)]. *)
Inductive pygount_child :=
| FileElem (language fname : string) (code : Z)
| OtherElem.

Record package_dir := mkPackageDir {
  package_path : string;
  catkin_ignore_exists : bool;
  manifest : list xml_child;
  pygount_files : list (list pygount_child)
}.

Record arguments := mkArgs { exclusive : list string; exclude : list string }.

(** *** Manifest (lines 287-308) *)
Record manifest_state := mkManifest {
  pkg_name : option string;
  build_depends : Z;
  exec_depends : Z;
  depends : gset (option string)
}.

Definition manifest_init : manifest_state := mkManifest None 0 0 ∅.

Definition manifest_child (st : manifest_state) (child : xml_child)
    : manifest_state :=
  match child with
  | NonElement => st
  | Element tag text =>
      if String.eqb tag "name" then
        mkManifest text (build_depends st) (exec_depends st) (depends st)
      else if String.eqb tag "build_depend" then
        mkManifest (pkg_name st) (build_depends st + 1) (exec_depends st)
                   ({[ text ]} ∪ depends st)
      else if String.eqb tag "exec_depend" then
        mkManifest (pkg_name st) (build_depends st) (exec_depends st + 1)
                   ({[ text ]} ∪ depends st)
      else if String.eqb tag "depend" then
        mkManifest (pkg_name st) (build_depends st + 1) (exec_depends st + 1)
                   ({[ text ]} ∪ depends st)
      else st
  end.

Definition parse_manifest (children : list xml_child) : manifest_state :=
  fold_left manifest_child children manifest_init.

(** *** Filters (lines 314-318): [true] when the loop [continue]s *)
Definition filtered_out (args : arguments) (n : string) : bool :=
  if bool_decide (n ∈ exclude args) then true
  else if negb (bool_decide (exclusive args = [])) && negb (bool_decide (n ∈ exclusive args))
  then true
  else false.

(** *** Classification of the pygount report (lines 328-350) *)
Record classified := mkClassified {
  cpp_files : list File;
  cpp_lines : Z;
  py_files : list File;
  py_lines : Z;
  launch_files : list File;
  msg_files : Z
}.

Definition classified_init : classified := mkClassified [] 0 [] 0 [] 0.

(** [s[-4:]] *)
Definition last4 (s : string) : string :=
  substring (String.length s - 4) 4 s.

(** [s.endswith(suffix)] *)
Definition endswith (s suffix : string) : bool :=
  (String.length suffix <=? String.length s)%nat
  && String.eqb (substring (String.length s - String.length suffix)
                           (String.length suffix) s) suffix.

Definition classify_child (c : classified) (child : pygount_child) : classified :=
  match child with
  | OtherElem => c
  | FileElem language fname code =>
      if String.eqb language "C++" || String.eqb language "C" then
        mkClassified (cpp_files c ++ [mkFile fname code]) (cpp_lines c + code)
                     (py_files c) (py_lines c) (launch_files c) (msg_files c)
      else if String.eqb language "__unknown__" then
        if String.eqb (last4 fname) ".msg" || String.eqb (last4 fname) ".srv" then
          mkClassified (cpp_files c) (cpp_lines c) (py_files c) (py_lines c)
                       (launch_files c) (msg_files c + 1)
        else if endswith fname ".launch" then
          mkClassified (cpp_files c) (cpp_lines c) (py_files c) (py_lines c)
                       (launch_files c ++ [mkFile fname code]) (msg_files c)
        else c
      else if String.eqb language "Python" then
        mkClassified (cpp_files c) (cpp_lines c)
                     (py_files c ++ [mkFile fname code]) (py_lines c + code)
                     (launch_files c) (msg_files c)
      else c
  end.

Definition classify (files : list (list pygount_child)) : classified :=
  match files with
  | [] => classified_init
  | files0 :: _ => fold_left classify_child files0 classified_init
  end.

(** Python truthiness of a list. *)
Definition truthy {A} (l : list A) : bool :=
  match l with [] => false | _ => true end.

(** *** Score (lines 352-392) *)
Definition package_score (read : string -> list string) (c : classified)
    (deps : gset (option string)) : Z :=
  let score := 0 in
  let score := scan_files cpp_plugins read score (cpp_files c) in
  let score := scan_files py_plugins read score (py_files c) in
  let score := if truthy (cpp_files c) && truthy (py_files c)
               then score + 1 else score in
  let score := scan_files launch_plugins read score (launch_files c) in
  score + divide_round_up (Z.of_nat (size deps)) 2.

(** *** Size (lines 393-401) *)
Definition package_size (catkin_ignore : bool) (score : Z) : string :=
  if catkin_ignore then "S"
  else if (score <? 10)%Z then "S"
  else if (score <? 30)%Z then "M"
  else "L".

(** *** The row (line 403) *)
(** [%d] *)
Definition fmt_d (z : Z) : string := NilZero.string_of_int (Z.to_int z).

Record row := mkRow {
  row_name : string;
  row_build_depends : Z;
  row_exec_depends : Z;
  row_cpp_files : Z;
  row_cpp_lines : Z;
  row_py_files : Z;
  row_py_lines : Z;
  row_msg_files : Z;
  row_size : string
}.

(** ["%s,%d,%d,%d,%d,%d,%d,%d,%s" % (...)] *)
Definition format_row (r : row) : string :=
  row_name r ++ "," ++ fmt_d (row_build_depends r) ++ ","
  ++ fmt_d (row_exec_depends r) ++ "," ++ fmt_d (row_cpp_files r) ++ ","
  ++ fmt_d (row_cpp_lines r) ++ "," ++ fmt_d (row_py_files r) ++ ","
  ++ fmt_d (row_py_lines r) ++ "," ++ fmt_d (row_msg_files r) ++ ","
  ++ row_size r.

(** *** One iteration of [for package_path in package_paths] *)
Inductive outcome :=
| NoName (diagnostic : string)   (* line 311: printed, then [continue] *)
| Filtered                       (* lines 315, 318: [continue] *)
| Appended (r : row).            (* line 403 *)

Definition scan_package (args : arguments) (read : string -> list string)
    (p : package_dir) : outcome :=
  let m := parse_manifest (manifest p) in
  match pkg_name m with
  | None =>
      NoName ("Could not find package name in directory '"
              ++ package_path p ++ "', skipping")
  | Some n =>
      if filtered_out args n then Filtered
      else
        let c := classify (pygount_files p) in
        let score := package_score read c (depends m) in
        Appended (mkRow n (build_depends m) (exec_depends m)
                        (Z.of_nat (length (cpp_files c))) (cpp_lines c)
                        (Z.of_nat (length (py_files c))) (py_lines c)
                        (msg_files c)
                        (package_size (catkin_ignore_exists p) score))
  end.

(** The strings appended to [packages], in loop order. *)
Definition packages (args : arguments) (read : string -> list string)
    (dirs : list package_dir) : list string :=
  omap (fun p => match scan_package args read p with
                 | Appended r => Some (format_row r)
                 | _ => None
                 end) dirs.

(** [sorted(packages)]: strings compare byte-wise, which for UTF-8 is
    the code-point order of Python's [str]. *)
Fixpoint insert_sorted (x : string) (l : list string) : list string :=
  match l with
  | [] => [x]
  | y :: l' => if String.leb x y then x :: l else y :: insert_sorted x l'
  end.

Definition sorted (l : list string) : list string :=
  foldr insert_sorted [] l.

(** The rows printed after the header, in print order (line 406). *)
Definition report (args : arguments) (read : string -> list string)
    (dirs : list package_dir) : list string :=
  sorted (packages args read dirs).

(** What [main] prints, line by line, and what it returns: the
    diagnostics of the loop, the header (line 405), the sorted rows. *)
Definition header : string :=
  "Name,# Build Depends,# Exec Depends,# C/C++ files,# C/C++ source lines,# Python files,# Python source lines,# Message/Service files,Porting effort".

Definition diagnostics (args : arguments) (read : string -> list string)
    (dirs : list package_dir) : list string :=
  omap (fun p => match scan_package args read p with
                 | NoName d => Some d
                 | _ => None
                 end) dirs.

Definition main (args : arguments) (read : string -> list string)
    (dirs : list package_dir) : list string * Z :=
  ((diagnostics args read dirs ++ header :: report args read dirs)%list, 0).

End Scanner.

(** * Vocabulary of the properties *)

Import Scanner.

Definition cpp_file_hit (l : string) : bool :=
  Re.search RosCPPFileLinePlugin.roscpp_using_re l
  || Re.search RosCPPFileLinePlugin.roscpp_namespace_re l.

Definition tf_hit : string -> bool := Re.search RosCPPUsingTFLinePlugin.tf_using_re.

Definition tf2_hit : string -> bool := Re.search RosCPPUsingTFLinePlugin.tf2_using_re.

(** [q] is the least integer with [n <= d * q]: the ceiling of [n / d]. *)
Definition is_ceil (n d q : Z) : Prop := d * (q - 1) < n <= d * q.

(** The plugin object after the lines of a file. *)
Definition tf_state (content : list string) : RosCPPUsingTFLinePlugin.t :=
  fold_left RosCPPUsingTFLinePlugin.line_cb content RosCPPUsingTFLinePlugin.init.

(** The newline that ends a line read from a file. *)
Definition nl : string := String Re.newline "".

(** The [text] of a child when it is an element with one of [tags]. *)
Definition declares (tags : list string) (child : xml_child)
    : option (option string) :=
  match child with
  | Element tag text => if bool_decide (tag ∈ tags) then Some text else None
  | NonElement => None
  end.

(** The texts of the [name] elements, in document order. *)
Definition name_texts : list xml_child -> list (option string) :=
  omap (declares ["name"]).

(** The texts of all dependency declarations, of those that count as a
    build dependency, and of those that count as an exec dependency. *)
Definition dep_tags : list string := ["build_depend"; "exec_depend"; "depend"].

Definition dep_texts : list xml_child -> list (option string) :=
  omap (declares dep_tags).

Definition build_decls : list xml_child -> list (option string) :=
  omap (declares ["build_depend"; "depend"]).

Definition exec_decls : list xml_child -> list (option string) :=
  omap (declares ["exec_depend"; "depend"]).

(** What the set of dependency names adds to the score of a package:
    the score with the set less the score with no dependency. *)
Definition dependency_term (read : string -> list string) (c : classified)
    (deps : gset (option string)) : Z :=
  package_score read c deps - package_score read c ∅.

Definition sumZ (l : list Z) : Z := foldr Z.add 0 l.

(** The penalties the fresh plugins of one file finish with. *)
Definition plugin_penalties (fresh : list plugin) (read : string -> list string)
    (f : File) : Z :=
  sumZ (map (fun p => finish (observe p (read (name f))) f) fresh).

(** The penalties of all plugins over all files of the package. *)
Definition detector_total (read : string -> list string) (c : classified) : Z :=
  sumZ (map (plugin_penalties cpp_plugins read) (cpp_files c))
  + sumZ (map (plugin_penalties py_plugins read) (py_files c))
  + sumZ (map (plugin_penalties launch_plugins read) (launch_files c)).

(** What owning files of both languages adds to the score. *)
Definition cross_language_term (read : string -> list string) (c : classified)
    (deps : gset (option string)) : Z :=
  package_score read c deps - detector_total read c - dependency_term read c deps.

(** The entries of the pygount report that count as C or C++ files and
    as Python files. *)
Definition native_entry (child : pygount_child) : option File :=
  match child with
  | FileElem language fname code =>
      if bool_decide (language ∈ ["C++"; "C"]) then Some (mkFile fname code) else None
  | OtherElem => None
  end.

Definition python_entry (child : pygount_child) : option File :=
  match child with
  | FileElem language fname code =>
      if bool_decide (language = "Python") then Some (mkFile fname code) else None
  | OtherElem => None
  end.

Definition foo_manifest : list xml_child :=
  [Element "name" (Some "foo"); Element "depend" (Some "bar")].

(** Which of the eight classes an object belongs to. *)
Definition variant (pl : plugin) : nat :=
  match pl with
  | CPPFile _ => 0 | CPPUsingTF _ => 1 | CPPUsingDynamicReconfigure _ => 2
  | CPPActionServer _ => 3 | PyFile _ => 4 | PyUsingTF _ => 5
  | PyActionServer _ => 6 | LaunchTest _ => 7
  end%nat.

Definition stays_set (b b' : bool) : Prop := b = true -> b' = true.

(** A line that uses both transform libraries. *)
Definition both_on_one_line : list string :=
  ["tf::Transform t = lookup(tf2_ros::Buffer());" ++ nl].

(** The lines that set the flag of the remaining plugins. *)
Definition dynamic_reconfigure_hit : string -> bool :=
  Re.search RosCPPUsingDynamicReconfigurePlugin.dynamic_reconfigure_re.

Definition cpp_action_server_hit : string -> bool :=
  Re.search RosCPPActionServerPlugin.action_server_re.

Definition rospy_hit : string -> bool := Re.search RosPyFileLinePlugin.rospy_re.

Definition py_tf_hit (l : string) : bool :=
  Re.search RosPyUsingTFLinePlugin.tf_import_re l
  || Re.search RosPyUsingTFLinePlugin.tf_conversions_import_re l.

Definition py_action_server_hit : string -> bool :=
  Re.search RosPyActionServerLinePlugin.action_server_re.

Definition launch_test_hit : string -> bool :=
  Re.search RosLaunchTestLinePlugin.launch_test_re.

(** For each flag of a plugin, in the order of [flags], the lines that
    set it. *)
Definition hits (pl : plugin) : list (string -> bool) :=
  match pl with
  | CPPFile _ => [cpp_file_hit]
  | CPPUsingTF _ => [tf_hit; fun l => tf2_hit l && negb (tf_hit l)]
  | CPPUsingDynamicReconfigure _ => [dynamic_reconfigure_hit]
  | CPPActionServer _ => [cpp_action_server_hit]
  | PyFile _ => [rospy_hit]
  | PyUsingTF _ => [py_tf_hit]
  | PyActionServer _ => [py_action_server_hit]
  | LaunchTest _ => [launch_test_hit]
  end.

(** The test of lines 344-345 on a file name. *)
Definition is_msg_name (fname : string) : bool :=
  String.eqb (last4 fname) ".msg" || String.eqb (last4 fname) ".srv".

(** The entries of the pygount report that count as message or service
    files and as launch files. *)
Definition msg_entry (child : pygount_child) : option string :=
  match child with
  | FileElem language fname code =>
      if String.eqb language "__unknown__" && is_msg_name fname
      then Some fname else None
  | OtherElem => None
  end.

Definition launch_entry (child : pygount_child) : option File :=
  match child with
  | FileElem language fname code =>
      if String.eqb language "__unknown__" && negb (is_msg_name fname)
         && endswith fname ".launch"
      then Some (mkFile fname code) else None
  | OtherElem => None
  end.

(** An entry whose [code] attribute is not negative. *)
Definition code_not_negative (child : pygount_child) : bool :=
  match child with
  | FileElem _ _ code => (0 <=? code)%Z
  | OtherElem => true
  end.

(** The order of [sorted] on strings. *)
Definition row_le (a b : string) : Prop := String.leb a b = true.

(** The size letters from smallest to largest. *)
Definition size_rank (size : string) : nat :=
  if String.eqb size "S" then 0 else if String.eqb size "M" then 1 else 2.

(** A line with its ASCII capitals turned into small letters. *)
Fixpoint lower_s (s : string) : string :=
  match s with
  | EmptyString => EmptyString
  | String c s' => String (Re.lower c) (lower_s s')
  end.

(** Reading a decimal numeral back, as [int(s)] does for the output of
    [%d]. *)
Definition parse_d (s : string) : option Z :=
  option_map Z.of_int (NilZero.int_of_string s).

(** The most a plugin of each class can finish with on a file. *)
Definition penalty_cap (pl : plugin) (f : File) : Z :=
  match pl with
  | CPPFile _ => divide_round_up (lines f) 1000
  | PyFile _ => divide_round_up (lines f) 500
  | LaunchTest _ => 1
  | _ => 2
  end.

(** * Properties *)

(** ** Literal patterns are substring search *)
Section ReFacts.
Import Re.

Lemma append_cons (a : ascii) (s t : string) :
  String a s ++ t = String a (s ++ t).
Proof. reflexivity. Qed.


Lemma strip_sound (p s r : string) :
  strip false p s = Some r -> s = p ++ r.
Proof.
  revert s; induction p as [|a p IH]; intros s H; simpl in H.
  - now inversion H.
  - destruct s as [|b s]; [discriminate|].
    unfold byte_eqb in H. destruct (Ascii.eqb a b) eqn:E; [|discriminate].
    apply Ascii.eqb_eq in E; subst b.
    rewrite append_cons. now rewrite <- (IH _ H).
Qed.

Lemma strip_complete (p r : string) : strip false p (p ++ r) = Some r.
Proof.
  induction p as [|a p IH]; [reflexivity|].
  rewrite append_cons. simpl. unfold byte_eqb. now rewrite Ascii.eqb_refl.
Qed.

Lemma search_from_skip (ic : bool) (re : list atom) (pre s : string) :
  search_from ic re s = true -> search_from ic re (pre ++ s) = true.
Proof.
  induction pre as [|a pre IH]; intros H; [exact H|].
  rewrite append_cons. simpl. rewrite (IH H). apply orb_true_r.
Qed.

Lemma search_from_here (ic : bool) (re : list atom) (s : string) :
  match_here ic re s = true -> search_from ic re s = true.
Proof. destruct s; simpl; intros ->; reflexivity. Qed.

(** [re.search] of a literal pattern finds exactly its occurrences. *)
Lemma search_compile_iff (p l : string) :
  search (compile p) l = true <-> exists pre post, l = pre ++ p ++ post.
Proof.
  unfold search, compile; simpl. split.
  - induction l as [|a l IH]; simpl.
    + rewrite orb_false_r. destruct (strip false p "") as [r|] eqn:E; [|discriminate].
      intros _. exists "", r. exact (strip_sound _ _ _ E).
    + intros H. apply orb_true_iff in H as [H|H].
      * destruct (strip false p (String a l)) as [r|] eqn:E; [|discriminate].
        exists "", r. exact (strip_sound _ _ _ E).
      * destruct (IH H) as (pre & post & ->). now exists (String a pre), post.
  - intros (pre & post & ->). apply search_from_skip, search_from_here.
    simpl. now rewrite strip_complete.
Qed.


End ReFacts.

(** ** What a scan leaves in each plugin *)
Section PluginFacts.

Lemma feed_observe (ps : list plugin) (content : list string) :
  feed ps content = map (fun p => observe p content) ps.
Proof.
  unfold feed, observe. revert ps.
  induction content as [|l content IH]; intros ps; simpl.
  - now rewrite map_id.
  - rewrite IH, map_map. reflexivity.
Qed.

Lemma observe_CPPFile (s : RosCPPFileLinePlugin.t) (content : list string) :
  observe (CPPFile s) content =
  CPPFile (RosCPPFileLinePlugin.mk
             (RosCPPFileLinePlugin.rosfile s || existsb cpp_file_hit content)).
Proof.
  unfold observe. revert s.
  induction content as [|l content IH]; intros [b]; simpl.
  - now rewrite orb_false_r.
  - rewrite IH. unfold RosCPPFileLinePlugin.line_cb, cpp_file_hit; simpl.
    destruct b; simpl; [reflexivity|].
    destruct (Re.search RosCPPFileLinePlugin.roscpp_using_re l); simpl; [reflexivity|].
    destruct (Re.search RosCPPFileLinePlugin.roscpp_namespace_re l); reflexivity.
Qed.

Lemma observe_CPPUsingTF (s : RosCPPUsingTFLinePlugin.t) (content : list string) :
  observe (CPPUsingTF s) content =
  CPPUsingTF (RosCPPUsingTFLinePlugin.mk
    (RosCPPUsingTFLinePlugin.uses_tf s || existsb tf_hit content)
    (RosCPPUsingTFLinePlugin.uses_tf2_ros s
     || existsb (fun l => tf2_hit l && negb (tf_hit l)) content)).
Proof.
  unfold observe. revert s.
  induction content as [|l content IH]; intros [a b]; simpl.
  - now rewrite !orb_false_r.
  - rewrite IH. unfold RosCPPUsingTFLinePlugin.line_cb, tf_hit, tf2_hit; simpl.
    destruct a, b, (Re.search RosCPPUsingTFLinePlugin.tf_using_re l),
      (Re.search RosCPPUsingTFLinePlugin.tf2_using_re l); reflexivity.
Qed.

Lemma observe_CPPUsingDynamicReconfigure
    (s : RosCPPUsingDynamicReconfigurePlugin.t) (content : list string) :
  observe (CPPUsingDynamicReconfigure s) content =
  CPPUsingDynamicReconfigure (RosCPPUsingDynamicReconfigurePlugin.mk
    (RosCPPUsingDynamicReconfigurePlugin.uses_dynamic_reconfigure s
     || existsb (Re.search RosCPPUsingDynamicReconfigurePlugin.dynamic_reconfigure_re)
                content)).
Proof.
  unfold observe. revert s.
  induction content as [|l content IH]; intros [b]; simpl.
  - now rewrite orb_false_r.
  - rewrite IH. unfold RosCPPUsingDynamicReconfigurePlugin.line_cb; simpl.
    destruct b,
      (Re.search RosCPPUsingDynamicReconfigurePlugin.dynamic_reconfigure_re l);
      reflexivity.
Qed.

Lemma observe_CPPActionServer
    (s : RosCPPActionServerPlugin.t) (content : list string) :
  observe (CPPActionServer s) content =
  CPPActionServer (RosCPPActionServerPlugin.mk
    (RosCPPActionServerPlugin.uses_action_server s
     || existsb (Re.search RosCPPActionServerPlugin.action_server_re) content)).
Proof.
  unfold observe. revert s.
  induction content as [|l content IH]; intros [b]; simpl.
  - now rewrite orb_false_r.
  - rewrite IH. unfold RosCPPActionServerPlugin.line_cb; simpl.
    destruct b, (Re.search RosCPPActionServerPlugin.action_server_re l);
      reflexivity.
Qed.

End PluginFacts.

(** ** Rounding up *)

Lemma divide_round_up_ceil (n d : Z) :
  0 < d -> is_ceil n d (divide_round_up n d).
Proof.
  intros Hd. unfold is_ceil, divide_round_up.
  pose proof (Z.mul_div_le (n + (d - 1)) d Hd).
  pose proof (Z.mul_succ_div_gt (n + (d - 1)) d Hd).
  lia.
Qed.

Lemma is_ceil_unique (n d q q' : Z) :
  0 < d -> is_ceil n d q -> is_ceil n d q' -> q = q'.
Proof. unfold is_ceil. intros Hd H H'. nia. Qed.

(** ** The transform plugin of C++ files *)

Lemma observe_tf_state (content : list string) :
  observe (CPPUsingTF RosCPPUsingTFLinePlugin.init) content
  = CPPUsingTF (tf_state content).
Proof.
  unfold observe, tf_state. generalize RosCPPUsingTFLinePlugin.init.
  induction content as [|l content IH]; intros s; simpl; [reflexivity|].
  apply IH.
Qed.

Lemma tf_state_flags (content : list string) :
  tf_state content =
  RosCPPUsingTFLinePlugin.mk
    (existsb tf_hit content)
    (existsb (fun l => tf2_hit l && negb (tf_hit l)) content).
Proof.
  pose proof (observe_CPPUsingTF RosCPPUsingTFLinePlugin.init content) as H.
  rewrite observe_tf_state in H. now inversion H.
Qed.

(** The transform plugin in terms of its flags: it finishes with 2
    exactly when some line matches [tf::] and its [uses_tf2_ros] flag is
    still unset, and with 0 otherwise.  The flag is set by a line that
    matches [tf2_ros::] and does not match [tf::]. *)
Lemma transform_penalty_by_flags (content : list string) (f : File) :
  observe (CPPUsingTF RosCPPUsingTFLinePlugin.init) content
  = CPPUsingTF (tf_state content)
  /\ (finish (observe (CPPUsingTF RosCPPUsingTFLinePlugin.init) content) f = 2
   <-> existsb tf_hit content = true
       /\ RosCPPUsingTFLinePlugin.uses_tf2_ros (tf_state content) = false)
  /\ finish (observe (CPPUsingTF RosCPPUsingTFLinePlugin.init) content) f
     = (if existsb tf_hit content
           && negb (RosCPPUsingTFLinePlugin.uses_tf2_ros (tf_state content))
        then 2 else 0)
  /\ RosCPPUsingTFLinePlugin.uses_tf2_ros (tf_state content)
     = existsb (fun l => tf2_hit l && negb (tf_hit l)) content.
Proof.
  split; [apply observe_tf_state|].
  rewrite observe_tf_state, tf_state_flags. simpl.
  unfold RosCPPUsingTFLinePlugin.finish; simpl.
  destruct (existsb tf_hit content),
    (existsb (fun l => tf2_hit l && negb (tf_hit l)) content); simpl;
    repeat split; try reflexivity; try discriminate;
    intros [Hlegacy Hmodern]; discriminate.
Qed.

(** C1, evaluated where it fails. When [tf2_ros::] occurs in a file
    only on lines that also match [tf::], both patterns are present in
    the file, yet [line_cb] returns as soon as [tf::] matches, the
    [uses_tf2_ros] flag stays unset and the plugin finishes with 2, not
    with the 0 of "both present". *)
Theorem C1_both_present_penalty_two (content : list string) (f : File) :
  existsb (fun l => tf_hit l && tf2_hit l) content = true ->
  existsb (fun l => tf2_hit l && negb (tf_hit l)) content = false ->
  existsb tf_hit content = true
  /\ existsb tf2_hit content = true
  /\ RosCPPUsingTFLinePlugin.uses_tf2_ros (tf_state content) = false
  /\ finish (observe (CPPUsingTF RosCPPUsingTFLinePlugin.init) content) f = 2.
Proof.
  intros Hboth Hrec.
  apply existsb_exists in Hboth as (l & Hin & Hl).
  apply andb_true_iff in Hl as [Htf Htf2].
  assert (existsb tf_hit content = true) as Ha
    by (apply existsb_exists; exists l; tauto).
  assert (existsb tf2_hit content = true) as Hb
    by (apply existsb_exists; exists l; tauto).
  rewrite observe_tf_state, tf_state_flags, Ha, Hrec.
  repeat split; assumption.
Qed.

Lemma C1_witness :
  existsb tf_hit ["tf::Transform t = lookup(tf2_ros::Buffer());" ++ nl] = true
  /\ existsb tf2_hit ["tf::Transform t = lookup(tf2_ros::Buffer());" ++ nl] = true
  /\ finish (observe (CPPUsingTF RosCPPUsingTFLinePlugin.init)
               ["tf::Transform t = lookup(tf2_ros::Buffer());" ++ nl])
            (mkFile "listener.cpp" 1) = 2.
Proof.
  destruct (C1_both_present_penalty_two
              ["tf::Transform t = lookup(tf2_ros::Buffer());" ++ nl]
              (mkFile "listener.cpp" 1) eq_refl eq_refl) as (Ha & Hb & _ & Hp).
  repeat split; assumption.
Defined.

(** ** The legacy-namespace plugin of C++ files *)



(** ** Size buckets *)

(** C3. The size letter is a total function of the ignore flag and the
    score: with [CATKIN_IGNORE] present it is [S] whatever the score;
    otherwise [S] below 10, [M] from 10 to 29 and [L] from 30; and the
    row a package gets carries that letter for its own flag and score. *)
Theorem C3_size_bucket (catkin_ignore : bool) (score : Z) :
  (catkin_ignore = true -> package_size catkin_ignore score = "S")
  /\ (catkin_ignore = false -> score < 10 -> package_size catkin_ignore score = "S")
  /\ (catkin_ignore = false -> 10 <= score < 30 ->
      package_size catkin_ignore score = "M")
  /\ (catkin_ignore = false -> 30 <= score -> package_size catkin_ignore score = "L")
  /\ (package_size true 1000 = "S" /\ package_size false 9 = "S"
      /\ package_size false 10 = "M" /\ package_size false 29 = "M"
      /\ package_size false 30 = "L")
  /\ (forall args read p r,
        scan_package args read p = Appended r ->
        row_size r =
        package_size (catkin_ignore_exists p)
          (package_score read (classify (pygount_files p))
             (depends (parse_manifest (manifest p))))).
Proof.
  unfold package_size. repeat split; try reflexivity.
  - now intros ->.
  - intros -> H. destruct (Z.ltb_spec score 10); [reflexivity | lia].
  - intros -> H. destruct (Z.ltb_spec score 10); [lia|].
    destruct (Z.ltb_spec score 30); [reflexivity | lia].
  - intros -> H. destruct (Z.ltb_spec score 10); [lia|].
    destruct (Z.ltb_spec score 30); [lia | reflexivity].
  - intros args read p r. unfold scan_package.
    destruct (pkg_name (parse_manifest (manifest p))); [|discriminate].
    destruct (filtered_out args s); [discriminate|].
    intros [= <-]. reflexivity.
Qed.

Lemma C3_witness :
  package_size true 1000 = "S" /\ package_size false 29 = "M".
Proof.
  split.
  - apply (proj1 (C3_size_bucket true 1000)). reflexivity.
  - apply (proj1 (proj2 (proj2 (C3_size_bucket false 29)))); [reflexivity | lia].
Defined.

(** ** The manifest *)
Section ManifestFacts.

Local Arguments declares : simpl never.

Lemma parse_manifest_snoc (cs : list xml_child) (c : xml_child) :
  parse_manifest (cs ++ [c]) = manifest_child (parse_manifest cs) c.
Proof. unfold parse_manifest. now rewrite fold_left_app. Qed.

(** The four tags the loop tests, and any other. *)
Lemma tag_cases (tag : string) :
  tag = "name" \/ tag = "build_depend" \/ tag = "exec_depend" \/ tag = "depend"
  \/ (String.eqb tag "name" = false /\ String.eqb tag "build_depend" = false
      /\ String.eqb tag "exec_depend" = false /\ String.eqb tag "depend" = false).
Proof.
  destruct (String.eqb_spec tag "name"); [tauto|].
  destruct (String.eqb_spec tag "build_depend"); [tauto|].
  destruct (String.eqb_spec tag "exec_depend"); [tauto|].
  destruct (String.eqb_spec tag "depend"); tauto.
Qed.

Lemma declares_other (tags : list string) (tag : string) (text : option string) :
  Forall (fun t => String.eqb tag t = false) tags ->
  declares tags (Element tag text) = None.
Proof.
  intros H. unfold declares. rewrite bool_decide_eq_false_2; [reflexivity|].
  intros Hin. rewrite Forall_forall in H. specialize (H _ Hin).
  now rewrite String.eqb_refl in H.
Qed.

Ltac other_tag :=
  match goal with
  | H : _ /\ _ /\ _ /\ _ |- _ =>
      destruct H as (Hn & Hb & He & Hd);
      simpl manifest_child; rewrite ?Hn, ?Hb, ?He, ?Hd;
      rewrite ?declares_other by (repeat constructor; assumption)
  end.

Ltac set_tidy :=
  rewrite ?(right_id_L (∅ : gset (option string)) (∪));
  first [reflexivity | apply (comm_L (∪))].

Lemma pkg_name_last (cs : list xml_child) :
  pkg_name (parse_manifest cs) = default None (last (name_texts cs)).
Proof.
  induction cs as [|c cs IH] using rev_ind; [reflexivity|].
  rewrite parse_manifest_snoc. unfold name_texts in *. rewrite omap_app.
  destruct c as [tag text|]; simpl omap.
  - destruct (tag_cases tag) as [->|[->|[->|[->|H]]]];
      try (unfold declares; simpl; rewrite ?app_nil_r; exact IH).
    + unfold declares; simpl. now rewrite last_snoc.
    + other_tag. rewrite app_nil_r. exact IH.
  - simpl. rewrite app_nil_r. exact IH.
Qed.

Lemma depends_union (cs : list xml_child) :
  depends (parse_manifest cs) = list_to_set (dep_texts cs).
Proof.
  induction cs as [|c cs IH] using rev_ind; [reflexivity|].
  rewrite parse_manifest_snoc. unfold dep_texts in *.
  rewrite omap_app, list_to_set_app_L.
  destruct c as [tag text|]; simpl omap.
  - destruct (tag_cases tag) as [->|[->|[->|[->|H]]]];
      try (unfold declares; simpl; rewrite IH; set_tidy).
    other_tag. rewrite IH. simpl. set_tidy.
  - simpl. rewrite IH. set_tidy.
Qed.

Lemma build_depends_count (cs : list xml_child) :
  build_depends (parse_manifest cs) = Z.of_nat (length (build_decls cs)).
Proof.
  induction cs as [|c cs IH] using rev_ind; [reflexivity|].
  rewrite parse_manifest_snoc. unfold build_decls in *.
  rewrite omap_app, length_app.
  destruct c as [tag text|]; simpl omap.
  - destruct (tag_cases tag) as [->|[->|[->|[->|H]]]];
      try (simpl; rewrite IH; unfold declares; simpl; lia).
    other_tag. rewrite IH. simpl. lia.
  - simpl. rewrite IH. lia.
Qed.

Lemma exec_depends_count (cs : list xml_child) :
  exec_depends (parse_manifest cs) = Z.of_nat (length (exec_decls cs)).
Proof.
  induction cs as [|c cs IH] using rev_ind; [reflexivity|].
  rewrite parse_manifest_snoc. unfold exec_decls in *.
  rewrite omap_app, length_app.
  destruct c as [tag text|]; simpl omap.
  - destruct (tag_cases tag) as [->|[->|[->|[->|H]]]];
      try (simpl; rewrite IH; unfold declares; simpl; lia).
    other_tag. rewrite IH. simpl. lia.
  - simpl. rewrite IH. lia.
Qed.

End ManifestFacts.

(** C2 as stated fails: with two [name] elements the row carries the
    text of the second one, because every [name] child overwrites the
    variable. *)
Lemma C2_first_name_does_not_win :
  scan_package (mkArgs [] []) (fun _ => [])
    (mkPackageDir "/ws/pkg" false
       [Element "name" (Some "first"); Element "name" (Some "second")] [])
  = Appended (mkRow "second" 0 0 0 0 0 0 0 "S")
  /\ "second" <> "first".
Proof. split; [reflexivity | discriminate]. Qed.

(** C2, amended. The package name is the text of the last [name] child
    of the manifest root (last match wins): whenever a row is appended,
    its name field is the text of the last [name] element. *)
Theorem C2_last_name_wins (args : arguments) (read : string -> list string)
    (p : package_dir) (r : row) :
  scan_package args read p = Appended r ->
  last (name_texts (manifest p)) = Some (Some (row_name r))
  /\ pkg_name (parse_manifest (manifest p)) = Some (row_name r).
Proof.
  unfold scan_package. pose proof (pkg_name_last (manifest p)) as Hn.
  destruct (pkg_name (parse_manifest (manifest p))) as [n|] eqn:E; [|discriminate].
  destruct (filtered_out args n); [discriminate|].
  intros [= <-]. simpl. split; [|reflexivity].
  destruct (last (name_texts (manifest p))) as [t|]; simpl in Hn; congruence.
Qed.

Lemma C2_witness :
  last (name_texts [Element "name" (Some "first"); Element "name" (Some "second")])
  = Some (Some "second").
Proof.
  apply (C2_last_name_wins (mkArgs [] []) (fun _ => [])
           (mkPackageDir "/ws/pkg" false
              [Element "name" (Some "first"); Element "name" (Some "second")] [])
           (mkRow "second" 0 0 0 0 0 0 0 "S")).
  reflexivity.
Defined.

(** ** The dependency term *)

Lemma dependency_term_eq (read : string -> list string) (c : classified)
    (deps : gset (option string)) :
  dependency_term read c deps = divide_round_up (Z.of_nat (size deps)) 2.
Proof.
  unfold dependency_term, package_score. rewrite size_empty.
  change (divide_round_up (Z.of_nat 0) 2) with 0. lia.
Qed.

Lemma size_depends (cs : list xml_child) :
  size (depends (parse_manifest cs)) = length (remove_dups (dep_texts cs)).
Proof.
  rewrite depends_union.
  rewrite <- (size_list_to_set (C := gset (option string)) (remove_dups (dep_texts cs)))
    by apply NoDup_remove_dups.
  f_equal. apply set_eq. intros x.
  rewrite !elem_of_list_to_set. now rewrite elem_of_remove_dups.
Qed.

(** C5. The dependency term of the score is [ceil(n / 2)], [n] being the
    number of distinct texts among the [build_depend], [exec_depend] and
    [depend] children of the manifest; so 0 names add 0, 1 name adds 1
    and 4 names add 2. *)
Theorem C5_dependency_term (read : string -> list string) (c : classified)
    (cs : list xml_child) :
  depends (parse_manifest cs) = list_to_set (dep_texts cs)
  /\ size (depends (parse_manifest cs)) = length (remove_dups (dep_texts cs))
  /\ dependency_term read c (depends (parse_manifest cs))
     = divide_round_up (Z.of_nat (length (remove_dups (dep_texts cs)))) 2
  /\ is_ceil (Z.of_nat (length (remove_dups (dep_texts cs)))) 2
       (dependency_term read c (depends (parse_manifest cs)))
  /\ (length (remove_dups (dep_texts cs)) = 0%nat ->
      dependency_term read c (depends (parse_manifest cs)) = 0)
  /\ (length (remove_dups (dep_texts cs)) = 1%nat ->
      dependency_term read c (depends (parse_manifest cs)) = 1)
  /\ (length (remove_dups (dep_texts cs)) = 4%nat ->
      dependency_term read c (depends (parse_manifest cs)) = 2).
Proof.
  rewrite dependency_term_eq, size_depends.
  repeat split; try (intros ->; reflexivity).
  - apply depends_union.
  - apply divide_round_up_ceil; lia.
  - apply divide_round_up_ceil; lia.
Qed.

Lemma C5_witness :
  dependency_term (fun _ => []) classified_init
    (depends (parse_manifest
       [Element "name" (Some "foo"); Element "build_depend" (Some "a");
        Element "exec_depend" (Some "b"); Element "depend" (Some "c");
        Element "depend" (Some "d"); Element "exec_depend" (Some "a")])) = 2.
Proof.
  apply (C5_dependency_term (fun _ => []) classified_init
           [Element "name" (Some "foo"); Element "build_depend" (Some "a");
            Element "exec_depend" (Some "b"); Element "depend" (Some "c");
            Element "depend" (Some "d"); Element "exec_depend" (Some "a")]).
  vm_compute. reflexivity.
Defined.

Lemma omap_insert_length {A B} (f : A -> option B) (pre post : list A) (x : A) :
  length (omap f (pre ++ x :: post)%list)
  = (length (omap f (pre ++ post)%list) + length (omap f [x]))%nat.
Proof.
  change (x :: post) with ([x] ++ post)%list.
  rewrite !omap_app, !length_app. lia.
Qed.

(** C9. The two counters of the row count declarations: every
    [build_depend] or [depend] child adds one to the build counter and
    every [exec_depend] or [depend] child one to the exec counter,
    repeated names included.  The score uses the set of names only: a
    further declaration of a name that is already declared raises the
    counters and leaves the set, hence the score, as it was. *)
Theorem C9_counters_count_declarations (pre post : list xml_child)
    (tag : string) (text : option string)
    (read : string -> list string) (c : classified) :
  tag ∈ dep_tags ->
  text ∈ dep_texts (pre ++ post) ->
  (forall cs, build_depends (parse_manifest cs) = Z.of_nat (length (build_decls cs))
              /\ exec_depends (parse_manifest cs) = Z.of_nat (length (exec_decls cs)))
  /\ (forall args p r,
        scan_package args read p = Appended r ->
        row_build_depends r = Z.of_nat (length (build_decls (manifest p)))
        /\ row_exec_depends r = Z.of_nat (length (exec_decls (manifest p))))
  /\ depends (parse_manifest (pre ++ Element tag text :: post))
     = depends (parse_manifest (pre ++ post))
  /\ package_score read c (depends (parse_manifest (pre ++ Element tag text :: post)))
     = package_score read c (depends (parse_manifest (pre ++ post)))
  /\ build_depends (parse_manifest (pre ++ post))
     <= build_depends (parse_manifest (pre ++ Element tag text :: post))
  /\ exec_depends (parse_manifest (pre ++ post))
     <= exec_depends (parse_manifest (pre ++ Element tag text :: post))
  /\ build_depends (parse_manifest (pre ++ post))
     + exec_depends (parse_manifest (pre ++ post))
     < build_depends (parse_manifest (pre ++ Element tag text :: post))
       + exec_depends (parse_manifest (pre ++ Element tag text :: post)).
Proof.
  intros Htag Htext.
  assert (depends (parse_manifest (pre ++ Element tag text :: post))
          = depends (parse_manifest (pre ++ post))) as Hdeps.
  { rewrite !depends_union. unfold dep_texts in *.
    rewrite !omap_app in *. simpl omap. unfold declares at 2.
    rewrite bool_decide_eq_true_2 by exact Htag.
    apply set_eq. intros x. rewrite !elem_of_list_to_set.
    rewrite !elem_of_app, elem_of_cons. rewrite elem_of_app in Htext.
    split; [intros [?|[->|?]]|]; tauto. }
  split; [intros cs; split; [apply build_depends_count | apply exec_depends_count]|].
  split.
  { intros args p r. unfold scan_package.
    destruct (pkg_name (parse_manifest (manifest p))) as [n|]; [|discriminate].
    destruct (filtered_out args n); [discriminate|].
    intros [= <-]. simpl.
    split; [apply build_depends_count | apply exec_depends_count]. }
  split; [exact Hdeps|]. split; [now rewrite Hdeps|].
  rewrite !build_depends_count, !exec_depends_count.
  unfold build_decls, exec_decls. rewrite !omap_insert_length.
  unfold dep_tags in Htag.
  apply elem_of_cons in Htag as [->|Htag];
    [|apply elem_of_cons in Htag as [->|Htag];
      [|apply list_elem_of_singleton in Htag as ->]];
    simpl; lia.
Qed.

Lemma C9_witness :
  build_depends (parse_manifest
    [Element "name" (Some "foo"); Element "build_depend" (Some "bar")])
  + exec_depends (parse_manifest
    [Element "name" (Some "foo"); Element "build_depend" (Some "bar")])
  < build_depends (parse_manifest
      [Element "name" (Some "foo"); Element "build_depend" (Some "bar");
       Element "exec_depend" (Some "bar")])
    + exec_depends (parse_manifest
      [Element "name" (Some "foo"); Element "build_depend" (Some "bar");
       Element "exec_depend" (Some "bar")])
  /\ depends (parse_manifest
      [Element "name" (Some "foo"); Element "build_depend" (Some "bar");
       Element "exec_depend" (Some "bar")])
     = depends (parse_manifest
      [Element "name" (Some "foo"); Element "build_depend" (Some "bar")]).
Proof.
  destruct (C9_counters_count_declarations
              [Element "name" (Some "foo"); Element "build_depend" (Some "bar")] []
              "exec_depend" (Some "bar") (fun _ => []) classified_init)
    as (_ & _ & Hd & _ & _ & _ & Hlt).
  - apply (bool_decide_unpack _). vm_compute. exact I.
  - apply (bool_decide_unpack _). vm_compute. exact I.
  - split; [exact Hlt | exact Hd].
Defined.

(** ** The filters *)

Lemma filtered_out_iff (args : arguments) (n : string) :
  filtered_out args n = true
  <-> n ∈ exclude args \/ (exclusive args <> [] /\ n ∉ exclusive args).
Proof.
  unfold filtered_out.
  destruct (decide (n ∈ exclude args)) as [Hex|Hex].
  - rewrite bool_decide_eq_true_2 by exact Hex. tauto.
  - rewrite bool_decide_eq_false_2 by exact Hex.
    destruct (decide (exclusive args = [])) as [He|He].
    + rewrite (bool_decide_eq_true_2 _ He). simpl. split; [discriminate | tauto].
    + rewrite (bool_decide_eq_false_2 _ He). simpl.
      destruct (decide (n ∈ exclusive args)) as [Hin|Hin].
      * rewrite (bool_decide_eq_true_2 _ Hin). simpl. split; [discriminate | tauto].
      * rewrite (bool_decide_eq_false_2 _ Hin). simpl. tauto.
Qed.

Lemma filtered_package_has_no_row (args : arguments)
    (read : string -> list string) (p : package_dir) (n : string) :
  pkg_name (parse_manifest (manifest p)) = Some n ->
  filtered_out args n = true ->
  scan_package args read p = Filtered
  /\ forall pre post, report args read (pre ++ p :: post)
                      = report args read (pre ++ post).
Proof.
  intros Hn Hf.
  assert (scan_package args read p = Filtered) as Hs.
  { unfold scan_package. now rewrite Hn, Hf. }
  split; [exact Hs|]. intros pre post. unfold report, packages.
  change (p :: post) with ([p] ++ post)%list.
  rewrite !omap_app. simpl. now rewrite Hs.
Qed.

(** C6. A package named in [--exclude] is dropped even when
    [--exclusive] is non-empty and names it too; a package not named in
    a non-empty [--exclusive] list is dropped; nothing else is dropped.
    A dropped package contributes no row to the report; so with
    [--exclusive foo --exclude foo] the package [foo] has no row. *)
Theorem C6_exclude_wins (args : arguments) (n : string) :
  (n ∈ exclude args -> filtered_out args n = true)
  /\ (exclusive args <> [] -> n ∉ exclusive args -> filtered_out args n = true)
  /\ (filtered_out args n = true
      <-> n ∈ exclude args \/ (exclusive args <> [] /\ n ∉ exclusive args))
  /\ (forall read p,
        pkg_name (parse_manifest (manifest p)) = Some n ->
        filtered_out args n = true ->
        scan_package args read p = Filtered
        /\ forall pre post, report args read (pre ++ p :: post)
                            = report args read (pre ++ post))
  /\ (forall read p,
        pkg_name (parse_manifest (manifest p)) = Some "foo" ->
        scan_package (mkArgs ["foo"] ["foo"]) read p = Filtered
        /\ report (mkArgs ["foo"] ["foo"]) read [p] = []
        /\ main (mkArgs ["foo"] ["foo"]) read [p] = ([header], 0)).
Proof.
  pose proof (filtered_out_iff args n) as Hiff.
  split; [tauto|]. split; [tauto|]. split; [exact Hiff|].
  split; [intros read p; apply filtered_package_has_no_row|].
  intros read p Hn.
  destruct (filtered_package_has_no_row (mkArgs ["foo"] ["foo"]) read p "foo" Hn
              eq_refl) as [Hs Hr].
  specialize (Hr [] []). simpl in Hr.
  split; [exact Hs|]. split; [exact Hr|].
  unfold main, diagnostics. rewrite Hr. simpl. now rewrite Hs.
Qed.

Lemma C6_witness :
  report (mkArgs ["foo"] ["foo"])
    (fun _ => ["#include <ros/ros.h>" ++ nl])
    [mkPackageDir "/ws/foo" false
       [Element "name" (Some "foo"); Element "depend" (Some "roscpp")]
       [[FileElem "C++" "/ws/foo/main.cpp" 12]]] = [].
Proof.
  apply (C6_exclude_wins (mkArgs ["foo"] ["foo"]) "foo"). reflexivity.
Defined.

(** ** The parts of the score *)

Lemma finish_all_sum (score : Z) (ps : list plugin) (f : File) :
  finish_all score ps f = score + sumZ (map (fun p => finish p f) ps).
Proof.
  unfold finish_all. revert score.
  induction ps as [|p ps IH]; intros score; simpl; [lia|]. rewrite IH. lia.
Qed.

Lemma scan_file_sum (fresh : list plugin) (read : string -> list string)
    (score : Z) (f : File) :
  scan_file fresh read score f = score + plugin_penalties fresh read f.
Proof.
  unfold scan_file, plugin_penalties.
  now rewrite finish_all_sum, feed_observe, map_map.
Qed.

Lemma scan_files_sum (fresh : list plugin) (read : string -> list string)
    (score : Z) (files : list File) :
  scan_files fresh read score files
  = score + sumZ (map (plugin_penalties fresh read) files).
Proof.
  unfold scan_files. revert score.
  induction files as [|f files IH]; intros score; simpl; [lia|].
  rewrite IH, scan_file_sum. lia.
Qed.

Lemma package_score_parts (read : string -> list string) (c : classified)
    (deps : gset (option string)) :
  package_score read c deps
  = detector_total read c
    + (if truthy (cpp_files c) && truthy (py_files c) then 1 else 0)
    + divide_round_up (Z.of_nat (size deps)) 2.
Proof.
  unfold package_score, detector_total.
  destruct (truthy (cpp_files c) && truthy (py_files c));
    rewrite !scan_files_sum; lia.
Qed.

Lemma classify_files (entries : list pygount_child) (c0 : classified) :
  cpp_files (fold_left classify_child entries c0)
  = (cpp_files c0 ++ omap native_entry entries)%list
  /\ py_files (fold_left classify_child entries c0)
     = (py_files c0 ++ omap python_entry entries)%list.
Proof.
  revert c0. induction entries as [|e entries IH]; intros c0; simpl.
  - now rewrite !app_nil_r.
  - destruct (IH (classify_child c0 e)) as [-> ->]. clear IH.
    destruct e as [language fname code|]; simpl; [|tauto].
    destruct (String.eqb_spec language "C++") as [->|H1]; simpl.
    { now rewrite <- !app_assoc. }
    destruct (String.eqb_spec language "C") as [->|H2]; simpl.
    { now rewrite <- !app_assoc. }
    rewrite (bool_decide_eq_false_2 (language ∈ ["C++"; "C"]))
      by (intros Hin; apply elem_of_cons in Hin as [?|Hin];
          [|apply list_elem_of_singleton in Hin]; congruence).
    destruct (String.eqb_spec language "__unknown__") as [->|H3]; simpl.
    { destruct (String.eqb (last4 fname) ".msg" || String.eqb (last4 fname) ".srv");
        simpl; [tauto|].
      destruct (endswith fname ".launch"); simpl; tauto. }
    destruct (String.eqb_spec language "Python") as [->|H4]; simpl.
    { now rewrite <- !app_assoc. }
    rewrite (bool_decide_eq_false_2 (language = "Python")) by exact H4. tauto.
Qed.

Lemma classify_first (files : list (list pygount_child)) :
  classify files = fold_left classify_child (List.hd [] files) classified_init.
Proof. destruct files; reflexivity. Qed.

(** C7. One point is added for a package exactly when it owns a C or
    C++ file and a Python file at once, that is when both file counts of
    its row are positive; a package with files of one language only, or
    of neither, gets nothing. *)
Theorem C7_cross_language_term (read : string -> list string)
    (files : list (list pygount_child)) (deps : gset (option string)) :
  cross_language_term read (classify files) deps
  = (if bool_decide (0 < length (cpp_files (classify files)))%nat
        && bool_decide (0 < length (py_files (classify files)))%nat
     then 1 else 0)
  /\ (cross_language_term read (classify files) deps = 1
      <-> (exists f, f ∈ omap native_entry (List.hd [] files))
          /\ (exists f, f ∈ omap python_entry (List.hd [] files)))
  /\ (omap native_entry (List.hd [] files) = [] ->
      cross_language_term read (classify files) deps = 0)
  /\ (omap python_entry (List.hd [] files) = [] ->
      cross_language_term read (classify files) deps = 0)
  /\ package_score read (classify files) deps
     = detector_total read (classify files)
       + dependency_term read (classify files) deps
       + cross_language_term read (classify files) deps.
Proof.
  unfold cross_language_term. rewrite dependency_term_eq, package_score_parts.
  rewrite classify_first.
  destruct (classify_files (List.hd [] files) classified_init) as [-> ->].
  simpl. destruct (omap native_entry (List.hd [] files)) as [|f fs];
    destruct (omap python_entry (List.hd [] files)) as [|g gs]; simpl;
    repeat split; intros; try lia; try discriminate;
    try (eexists; apply list_elem_of_here);
    repeat match goal with
           | H : _ /\ _ |- _ => destruct H
           | H : exists _, _ |- _ => destruct H
           | H : _ ∈ [] |- _ => inversion H
           end.
Qed.

Lemma C7_witness :
  cross_language_term (fun _ => [])
    (classify [[FileElem "Python" "talker.py" 10; FileElem "C++" "talker.cpp" 20]]) ∅
  = 1
  /\ cross_language_term (fun _ => [])
       (classify [[FileElem "C++" "talker.cpp" 20]]) ∅ = 0.
Proof.
  split.
  - apply (C7_cross_language_term (fun _ => [])
             [[FileElem "Python" "talker.py" 10; FileElem "C++" "talker.cpp" 20]] ∅).
    split; eexists; apply list_elem_of_here.
  - apply (C7_cross_language_term (fun _ => []) [[FileElem "C++" "talker.cpp" 20]] ∅).
    reflexivity.
Defined.

(** ** One package from manifest to row *)

Lemma scan_package_appended (args : arguments) (read : string -> list string)
    (p : package_dir) (n : string) :
  pkg_name (parse_manifest (manifest p)) = Some n ->
  filtered_out args n = false ->
  scan_package args read p
  = Appended
      (mkRow n (build_depends (parse_manifest (manifest p)))
         (exec_depends (parse_manifest (manifest p)))
         (Z.of_nat (length (cpp_files (classify (pygount_files p)))))
         (cpp_lines (classify (pygount_files p)))
         (Z.of_nat (length (py_files (classify (pygount_files p)))))
         (py_lines (classify (pygount_files p)))
         (msg_files (classify (pygount_files p)))
         (package_size (catkin_ignore_exists p)
            (package_score read (classify (pygount_files p))
               (depends (parse_manifest (manifest p)))))).
Proof. intros Hn Hf. unfold scan_package. cbv zeta. now rewrite Hn, Hf. Qed.

(** C4. A package whose manifest names it [foo] and declares one
    [depend] on [bar], with one C or C++ file of 500 counted lines that
    has a line using the [ros] namespace and no line matching the
    transform, dynamic-reconfigure or action-server patterns, and with
    no other file: the namespace penalty is 1, the dependency term is 1,
    the score is 2, the size is [S] and the row printed is
    [foo,1,1,1,500,0,0,0,S]. *)
Theorem C4_end_to_end (args : arguments) (read : string -> list string)
    (path : string) (catkin_ignore : bool) (language fname : string) :
  filtered_out args "foo" = false ->
  language ∈ ["C++"; "C"] ->
  existsb cpp_file_hit (read fname) = true ->
  existsb tf_hit (read fname) = false ->
  existsb (Re.search RosCPPUsingDynamicReconfigurePlugin.dynamic_reconfigure_re)
          (read fname) = false ->
  existsb (Re.search RosCPPActionServerPlugin.action_server_re) (read fname) = false ->
  finish (observe (CPPFile RosCPPFileLinePlugin.init) (read fname)) (mkFile fname 500)
  = 1
  /\ is_ceil 500 1000 1
  /\ plugin_penalties cpp_plugins read (mkFile fname 500) = 1
  /\ dependency_term read (classify [[FileElem language fname 500]])
       (depends (parse_manifest foo_manifest)) = 1
  /\ is_ceil 1 2 1
  /\ package_score read (classify [[FileElem language fname 500]])
       (depends (parse_manifest foo_manifest)) = 2
  /\ scan_package args read
       (mkPackageDir path catkin_ignore foo_manifest [[FileElem language fname 500]])
     = Appended (mkRow "foo" 1 1 1 500 0 0 0 "S")
  /\ report args read
       [mkPackageDir path catkin_ignore foo_manifest [[FileElem language fname 500]]]
     = ["foo,1,1,1,500,0,0,0,S"]
  /\ main args read
       [mkPackageDir path catkin_ignore foo_manifest [[FileElem language fname 500]]]
     = ([header; "foo,1,1,1,500,0,0,0,S"], 0).
Proof.
  intros Hf Hlang Hros Htf Hdyn Hact.
  assert (size (depends (parse_manifest foo_manifest)) = 1%nat) as Hsize
    by reflexivity.
  assert (finish (observe (CPPFile RosCPPFileLinePlugin.init) (read fname))
            (mkFile fname 500) = 1) as Hns.
  { rewrite observe_CPPFile, Hros. reflexivity. }
  assert (plugin_penalties cpp_plugins read (mkFile fname 500) = 1) as Hpen.
  { unfold plugin_penalties, cpp_plugins. simpl map. rewrite Hns.
    rewrite observe_CPPUsingTF, observe_CPPUsingDynamicReconfigure,
      observe_CPPActionServer, Htf, Hdyn, Hact. reflexivity. }
  assert (classify [[FileElem language fname 500]]
          = mkClassified [mkFile fname 500] 500 [] 0 [] 0) as Hc.
  { apply elem_of_cons in Hlang as [->|Hlang];
      [|apply list_elem_of_singleton in Hlang as ->]; reflexivity. }
  assert (package_score read (classify [[FileElem language fname 500]])
            (depends (parse_manifest foo_manifest)) = 2) as Hscore.
  { rewrite package_score_parts, Hc, Hsize. unfold detector_total. simpl.
    rewrite Hpen. reflexivity. }
  assert (scan_package args read
            (mkPackageDir path catkin_ignore foo_manifest
               [[FileElem language fname 500]])
          = Appended (mkRow "foo" 1 1 1 500 0 0 0 "S")) as Hrow.
  { rewrite (scan_package_appended args read
               (mkPackageDir path catkin_ignore foo_manifest
                  [[FileElem language fname 500]]) "foo" eq_refl Hf).
    change (manifest _) with foo_manifest.
    change (pygount_files _) with [[FileElem language fname 500]].
    rewrite Hscore, Hc. destruct catkin_ignore; reflexivity. }
  split; [exact Hns|]. split; [unfold is_ceil; lia|]. split; [exact Hpen|].
  split; [rewrite dependency_term_eq, Hsize; reflexivity|].
  split; [unfold is_ceil; lia|]. split; [exact Hscore|]. split; [exact Hrow|].
  unfold main, diagnostics, report, packages. simpl omap. rewrite Hrow.
  split; reflexivity.
Qed.

Lemma C4_witness :
  report (mkArgs [] [])
    (fun _ => ["#include <ros/ros.h>" ++ nl; "using namespace ros;" ++ nl])
    [mkPackageDir "/ws/src/foo" false foo_manifest
       [[FileElem "C++" "/ws/src/foo/src/foo.cpp" 500]]]
  = ["foo,1,1,1,500,0,0,0,S"].
Proof.
  apply (C4_end_to_end (mkArgs [] [])
           (fun _ => ["#include <ros/ros.h>" ++ nl; "using namespace ros;" ++ nl])
           "/ws/src/foo" false "C++" "/ws/src/foo/src/foo.cpp");
    try reflexivity.
  apply (bool_decide_unpack _). vm_compute. exact I.
Defined.

(** ** Flags under observation *)
Section FlagFacts.

Ltac unfold_plugins :=
  unfold RosCPPFileLinePlugin.line_cb, RosCPPUsingTFLinePlugin.line_cb,
    RosCPPUsingDynamicReconfigurePlugin.line_cb, RosCPPActionServerPlugin.line_cb,
    RosPyFileLinePlugin.line_cb, RosPyUsingTFLinePlugin.line_cb,
    RosPyActionServerLinePlugin.line_cb, RosLaunchTestLinePlugin.line_cb.

Lemma line_cb_keeps_variant (pl : plugin) (l : string) :
  variant (line_cb pl l) = variant pl.
Proof. destruct pl; reflexivity. Qed.

(** A flag that is set stays set across [line_cb]. *)
Lemma line_cb_monotone (pl : plugin) (l : string) :
  Forall2 stays_set (flags pl) (flags (line_cb pl l)).
Proof.
  destruct pl as [[a]|[a b]|[a]|[a]|[a]|[a]|[a]|[a]]; simpl; unfold_plugins; simpl;
    repeat match goal with
           | |- context [if ?c then _ else _] => destruct c; simpl
           end;
    repeat constructor; unfold stays_set; auto; discriminate.
Qed.

Lemma observe_monotone (pl : plugin) (content : list string) :
  Forall2 stays_set (flags pl) (flags (observe pl content)).
Proof.
  unfold observe. revert pl.
  induction content as [|l content IH]; intros pl; simpl.
  - apply Forall2_same_length_lookup_2; [reflexivity|].
    intros i x y Hx Hy. unfold stays_set. congruence.
  - specialize (IH (line_cb pl l)). pose proof (line_cb_monotone pl l) as H.
    revert H IH. generalize (flags (fold_left line_cb content (line_cb pl l))).
    generalize (flags (line_cb pl l)). generalize (flags pl).
    intros l1 l2 l3 H12. revert l3.
    induction H12 as [|x y l1 l2 Hxy H12 IH']; intros l3 H23;
      inversion H23; subst; constructor; unfold stays_set in *; auto.
Qed.

(** The penalty depends on the object's class and flags and on the
    file's counted lines only. *)
Lemma finish_reads_flags_and_lines (pl pl' : plugin) (f f' : File) :
  variant pl = variant pl' -> flags pl = flags pl' -> lines f = lines f' ->
  finish pl f = finish pl' f'.
Proof.
  destruct pl as [[a]|[a b]|[a]|[a]|[a]|[a]|[a]|[a]];
    destruct pl' as [[a']|[a' b']|[a']|[a']|[a']|[a']|[a']|[a']];
    simpl; try discriminate; intros _ Hfl Hl;
    injection Hfl as ?; subst;
    unfold RosCPPFileLinePlugin.finish, RosPyFileLinePlugin.finish; simpl;
    try rewrite Hl; reflexivity.
Qed.

(** With every flag set, [line_cb] returns at once. *)
Lemma line_cb_saturated (pl : plugin) (l : string) :
  forallb id (flags pl) = true -> line_cb pl l = pl.
Proof.
  destruct pl as [[a]|[a b]|[a]|[a]|[a]|[a]|[a]|[a]]; simpl; unfold_plugins; simpl;
    try destruct a; try destruct b; simpl; try discriminate; reflexivity.
Qed.

Lemma observe_saturated (pl : plugin) (content : list string) :
  forallb id (flags pl) = true -> observe pl content = pl.
Proof.
  intros H. unfold observe.
  induction content as [|l content IH]; simpl; [reflexivity|].
  now rewrite (line_cb_saturated pl l H).
Qed.

Lemma observe_app (pl : plugin) (content more : list string) :
  observe pl (content ++ more) = observe (observe pl content) more.
Proof. unfold observe. apply fold_left_app. Qed.

(** Lines appended after every flag is set change no penalty. *)
Lemma saturated_penalty_fixed (pl : plugin) (content more : list string)
    (f : File) :
  forallb id (flags (observe pl content)) = true ->
  finish (observe pl (content ++ more)) f = finish (observe pl content) f.
Proof. intros H. now rewrite observe_app, observe_saturated. Qed.

End FlagFacts.

(** C10, evaluated where it fails. After [both_on_one_line] each pattern
    of the transform plugin has matched, yet [uses_tf2_ros] is unset
    because [line_cb] returns as soon as [tf::] matches; a further line
    with [tf2_ros::] then lowers the penalty from 2 to 0. *)
Theorem C10_patterns_matched_penalty_changes (f f' : File) :
  forallb (fun re => existsb (Re.search re) both_on_one_line)
          (patterns (CPPUsingTF RosCPPUsingTFLinePlugin.init)) = true
  /\ flags (observe (CPPUsingTF RosCPPUsingTFLinePlugin.init) both_on_one_line)
     = [true; false]
  /\ finish (observe (CPPUsingTF RosCPPUsingTFLinePlugin.init) both_on_one_line) f
     = 2
  /\ finish (observe (CPPUsingTF RosCPPUsingTFLinePlugin.init)
               (both_on_one_line ++ ["tf2_ros::Buffer buffer;" ++ nl])) f'
     = 0.
Proof. repeat split; reflexivity. Qed.

(** * Further properties of the plugins *)
Section PluginLaws.

Ltac unfold_line_cb :=
  unfold RosCPPFileLinePlugin.line_cb, RosCPPUsingTFLinePlugin.line_cb,
    RosCPPUsingDynamicReconfigurePlugin.line_cb, RosCPPActionServerPlugin.line_cb,
    RosPyFileLinePlugin.line_cb, RosPyUsingTFLinePlugin.line_cb,
    RosPyActionServerLinePlugin.line_cb, RosLaunchTestLinePlugin.line_cb.

Ltac unfold_hits :=
  unfold cpp_file_hit, tf_hit, tf2_hit, dynamic_reconfigure_hit,
    cpp_action_server_hit, rospy_hit, py_tf_hit, py_action_server_hit,
    launch_test_hit.

Lemma hits_line_cb (pl : plugin) (l : string) : hits (line_cb pl l) = hits pl.
Proof. destruct pl; reflexivity. Qed.

(** One call of [line_cb]: each flag becomes itself or-ed with whether
    the line is one that sets it. *)
Lemma flags_line_cb (pl : plugin) (l : string) :
  flags (line_cb pl l) = zip_with orb (flags pl) (map (fun h => h l) (hits pl)).
Proof.
  destruct pl as [[a]|[a b]|[a]|[a]|[a]|[a]|[a]|[a]]; simpl;
    unfold_line_cb; unfold_hits; simpl;
    repeat match goal with
           | |- context [Re.search ?re l] => destruct (Re.search re l)
           end;
    try destruct a; try destruct b; reflexivity.
Qed.

Lemma flags_observe (pl : plugin) (content : list string) :
  flags (observe pl content)
  = zip_with orb (flags pl) (map (fun h => existsb h content) (hits pl)).
Proof.
  unfold observe. revert pl.
  induction content as [|l content IH]; intros pl.
  - destruct pl as [[a]|[a b]|[a]|[a]|[a]|[a]|[a]|[a]]; simpl;
      now rewrite ?orb_false_r.
  - simpl fold_left. rewrite IH, hits_line_cb, flags_line_cb.
    destruct pl as [[a]|[a b]|[a]|[a]|[a]|[a]|[a]|[a]]; simpl;
      now rewrite <- ?orb_assoc.
Qed.

Lemma variant_observe (pl : plugin) (content : list string) :
  variant (observe pl content) = variant pl.
Proof.
  unfold observe. revert pl.
  induction content as [|l content IH]; intros pl; simpl; [reflexivity|].
  now rewrite IH, line_cb_keeps_variant.
Qed.

(** An object is its class and its flags. *)
Lemma plugin_ext (pl pl' : plugin) :
  variant pl = variant pl' -> flags pl = flags pl' -> pl = pl'.
Proof.
  destruct pl as [[a]|[a b]|[a]|[a]|[a]|[a]|[a]|[a]];
    destruct pl' as [[a']|[a' b']|[a']|[a']|[a']|[a']|[a']|[a']];
    simpl; try discriminate; intros _ Hf; injection Hf as ?; subst; reflexivity.
Qed.

Lemma existsb_same_lines (h : string -> bool) (content content' : list string) :
  (forall l, l ∈ content <-> l ∈ content') ->
  existsb h content = existsb h content'.
Proof.
  intros Hset. apply eq_true_iff_eq. rewrite !existsb_exists.
  split; intros (l & Hin & Hl); exists l; (split; [|exact Hl]);
    apply list_elem_of_In; apply Hset; apply list_elem_of_In; exact Hin.
Qed.

(** X1. What a plugin holds after the lines of a file depends on which
    lines occur and not on their order or on how often a line occurs.
    So two files with the same set of lines and the same counted line
    total get the same penalty from every plugin; and from the six
    plugins that do not weigh a file by its size they get the same
    penalty whatever their counted totals. *)
Theorem X1_penalty_depends_on_line_set (pl : plugin)
    (content content' : list string) (f f' : File) :
  (forall l, l ∈ content <-> l ∈ content') ->
  observe pl content = observe pl content'
  /\ (lines f = lines f' ->
      finish (observe pl content) f = finish (observe pl content') f')
  /\ (variant pl <> 0%nat -> variant pl <> 4%nat ->
      finish (observe pl content) f = finish (observe pl content') f').
Proof.
  intros Hset.
  assert (observe pl content = observe pl content') as Heq.
  { apply plugin_ext; [now rewrite !variant_observe|].
    rewrite !flags_observe. f_equal. apply map_ext.
    intros h. now apply existsb_same_lines. }
  split; [exact Heq|]. rewrite <- Heq. split.
  - intros Hl. now apply finish_reads_flags_and_lines.
  - intros H0 H4. rewrite <- (variant_observe pl content) in H0, H4.
    destruct (observe pl content); simpl in H0, H4; try congruence; reflexivity.
Qed.

Lemma X1_witness :
  finish (observe (CPPUsingTF RosCPPUsingTFLinePlugin.init)
            ["tf::X a;" ++ nl; "int b;" ++ nl; "tf2_ros::Y c;" ++ nl])
         (mkFile "a.cpp" 3)
  = finish (observe (CPPUsingTF RosCPPUsingTFLinePlugin.init)
              ["tf2_ros::Y c;" ++ nl; "tf::X a;" ++ nl; "int b;" ++ nl;
               "tf::X a;" ++ nl])
           (mkFile "b.cpp" 4)
  /\ finish (observe (PyFile RosPyFileLinePlugin.init)
               ["import rospy" ++ nl; "x = 1" ++ nl])
            (mkFile "a.py" 700)
     = finish (observe (PyFile RosPyFileLinePlugin.init)
                 ["x = 1" ++ nl; "import rospy" ++ nl; "x = 1" ++ nl])
              (mkFile "b.py" 700).
Proof.
  split.
  - apply (X1_penalty_depends_on_line_set
             (CPPUsingTF RosCPPUsingTFLinePlugin.init)
             ["tf::X a;" ++ nl; "int b;" ++ nl; "tf2_ros::Y c;" ++ nl]
             ["tf2_ros::Y c;" ++ nl; "tf::X a;" ++ nl; "int b;" ++ nl;
              "tf::X a;" ++ nl]
             (mkFile "a.cpp" 3) (mkFile "b.cpp" 4));
      [intros l; rewrite !elem_of_cons, !elem_of_nil; tauto
      | discriminate | discriminate].
  - assert (forall l : string,
              l ∈ ["import rospy" ++ nl; "x = 1" ++ nl]
              <-> l ∈ ["x = 1" ++ nl; "import rospy" ++ nl; "x = 1" ++ nl]) as Hset
      by (intros l; rewrite !elem_of_cons, !elem_of_nil; tauto).
    apply (proj1 (proj2 (X1_penalty_depends_on_line_set
                           (PyFile RosPyFileLinePlugin.init)
                           ["import rospy" ++ nl; "x = 1" ++ nl]
                           ["x = 1" ++ nl; "import rospy" ++ nl; "x = 1" ++ nl]
                           (mkFile "a.py" 700) (mkFile "b.py" 700) Hset))).
    reflexivity.
Defined.

Lemma hit_needs_pattern (pl : plugin) (h : string -> bool) (l : string) :
  h ∈ hits pl -> h l = true ->
  exists re, re ∈ patterns pl /\ Re.search re l = true.
Proof.
  intros Hin Hl.
  destruct pl; simpl in Hin;
    repeat match goal with
           | H : _ ∈ _ :: _ |- _ => apply elem_of_cons in H as [->|H]
           | H : _ ∈ [] |- _ => inversion H
           end;
    revert Hl; unfold_hits; simpl;
    rewrite ?orb_true_iff, ?andb_true_iff; intros;
    repeat match goal with
           | H : _ \/ _ |- _ => destruct H
           | H : _ /\ _ |- _ => destruct H
           end;
    eexists; (split; [|eassumption]); simpl;
    rewrite ?elem_of_cons; auto.
Qed.

(** X2. A plugin with no flag set that is shown only lines none of its
    patterns matches is left as it was and finishes with 0. *)
Theorem X2_unmatched_file_costs_nothing (pl : plugin) (content : list string)
    (f : File) :
  forallb negb (flags pl) = true ->
  forallb (fun re => negb (existsb (Re.search re) content)) (patterns pl) = true ->
  observe pl content = pl /\ finish (observe pl content) f = 0.
Proof.
  intros Hflags Hpat.
  assert (observe pl content = pl) as ->.
  { apply plugin_ext; [apply variant_observe|].
    rewrite flags_observe.
    assert (forall h, h ∈ hits pl -> existsb h content = false) as Hno.
    { intros h Hh. apply not_true_is_false. intros He.
      apply existsb_exists in He as (l & Hl & Hhl).
      destruct (hit_needs_pattern pl h l Hh Hhl) as (re & Hre & Hs).
      rewrite forallb_forall in Hpat.
      specialize (Hpat re (proj1 (list_elem_of_In _ _) Hre)).
      apply negb_true_iff in Hpat.
      assert (existsb (Re.search re) content = true) as Ht
        by (apply existsb_exists; exists l; tauto).
      congruence. }
    destruct pl as [[a]|[a b]|[a]|[a]|[a]|[a]|[a]|[a]]; simpl in *;
      rewrite ?Hno by (rewrite ?elem_of_cons; auto);
      now rewrite ?orb_false_r. }
  split; [reflexivity|].
  destruct pl as [[a]|[a b]|[a]|[a]|[a]|[a]|[a]|[a]]; simpl in *;
    repeat match goal with
           | H : context [negb ?x] |- _ => destruct x; simpl in H; try discriminate
           end; reflexivity.
Qed.

Lemma X2_witness :
  finish (observe (PyUsingTF RosPyUsingTFLinePlugin.init)
            ["import tf2_ros" ++ nl; "import math" ++ nl])
         (mkFile "node.py" 2) = 0.
Proof.
  apply (X2_unmatched_file_costs_nothing (PyUsingTF RosPyUsingTFLinePlugin.init)
           ["import tf2_ros" ++ nl; "import math" ++ nl] (mkFile "node.py" 2));
    reflexivity.
Defined.

(** X3. A flag that is set before a file is read is set after it: no
    line of any file unsets a flag of any plugin. *)
Theorem X3_flags_only_rise (pl : plugin) (content : list string) :
  Forall2 stays_set (flags pl) (flags (observe pl content))
  /\ variant (observe pl content) = variant pl
  /\ length (flags (observe pl content)) = length (flags pl).
Proof.
  split; [apply observe_monotone|]. split; [apply variant_observe|].
  symmetry. eapply Forall2_length, observe_monotone.
Qed.

(** X4. Once every flag of a plugin is set, further lines change neither
    the plugin nor its penalty. *)
Theorem X4_saturated_plugin_is_fixed (pl : plugin) (content more : list string)
    (f : File) :
  forallb id (flags (observe pl content)) = true ->
  observe pl (content ++ more) = observe pl content
  /\ finish (observe pl (content ++ more)) f = finish (observe pl content) f.
Proof.
  intros H. split; [|now apply saturated_penalty_fixed].
  now rewrite observe_app, observe_saturated.
Qed.

Lemma X4_witness :
  finish (observe (CPPUsingTF RosCPPUsingTFLinePlugin.init)
            (["tf::X a;" ++ nl; "tf2_ros::Y c;" ++ nl] ++ ["tf::Z d;" ++ nl]))
         (mkFile "a.cpp" 3)
  = finish (observe (CPPUsingTF RosCPPUsingTFLinePlugin.init)
              ["tf::X a;" ++ nl; "tf2_ros::Y c;" ++ nl])
           (mkFile "a.cpp" 3).
Proof.
  apply (X4_saturated_plugin_is_fixed (CPPUsingTF RosCPPUsingTFLinePlugin.init)
           ["tf::X a;" ++ nl; "tf2_ros::Y c;" ++ nl] ["tf::Z d;" ++ nl]
           (mkFile "a.cpp" 3)).
  reflexivity.
Defined.

End PluginLaws.

(** * Further properties of the penalties *)
Section PenaltyLaws.

(** X5. For a positive divisor [divide_round_up n d] is the ceiling of
    [n / d]: the only [q] with [d * (q - 1) < n <= d * q].  It is
    monotone in [n], not negative for [n] not negative, and exact on
    multiples of [d]. *)
Theorem X5_divide_round_up_is_ceiling (n n' k d : Z) :
  0 < d ->
  is_ceil n d (divide_round_up n d)
  /\ (forall q, is_ceil n d q -> q = divide_round_up n d)
  /\ (n <= n' -> divide_round_up n d <= divide_round_up n' d)
  /\ (0 <= n -> 0 <= divide_round_up n d)
  /\ (0 < n -> 0 < divide_round_up n d)
  /\ divide_round_up (k * d) d = k.
Proof.
  intros Hd. pose proof (divide_round_up_ceil n d Hd) as Hc.
  split; [exact Hc|]. split.
  { intros q Hq. exact (is_ceil_unique n d q _ Hd Hq Hc). }
  split.
  { intros Hle. unfold divide_round_up. apply Z.div_le_mono; lia. }
  split; [unfold is_ceil in Hc; nia|]. split; [unfold is_ceil in Hc; nia|].
  symmetry. apply (is_ceil_unique (k * d) d); [exact Hd| |].
  - unfold is_ceil. nia.
  - apply divide_round_up_ceil, Hd.
Qed.

Lemma X5_witness :
  divide_round_up 1001 1000 = 2 /\ divide_round_up (3 * 500) 500 = 3.
Proof.
  split.
  - symmetry.
    apply (proj1 (proj2 (X5_divide_round_up_is_ceiling 1001 1001 0 1000 eq_refl))).
    unfold is_ceil. lia.
  - apply (X5_divide_round_up_is_ceiling 0 0 3 500). reflexivity.
Defined.

(** X6. No plugin, whatever its flags, finishes with a negative penalty
    on a file whose counted lines are not negative, and none finishes
    above the larger of 2 and [ceil(lines / 500)]. *)
Theorem X6_penalty_bounds (pl : plugin) (f : File) :
  0 <= lines f ->
  0 <= finish pl f <= Z.max 2 (divide_round_up (lines f) 500).
Proof.
  intros Hl.
  pose proof (divide_round_up_ceil (lines f) 1000 ltac:(lia)) as H1.
  pose proof (divide_round_up_ceil (lines f) 500 ltac:(lia)) as H5.
  unfold is_ceil in H1, H5.
  destruct pl as [[a]|[a b]|[a]|[a]|[a]|[a]|[a]|[a]]; simpl;
    unfold RosCPPFileLinePlugin.finish, RosCPPUsingTFLinePlugin.finish,
      RosCPPUsingDynamicReconfigurePlugin.finish, RosCPPActionServerPlugin.finish,
      RosPyFileLinePlugin.finish, RosPyUsingTFLinePlugin.finish,
      RosPyActionServerLinePlugin.finish, RosLaunchTestLinePlugin.finish; simpl;
    try destruct a; try destruct b; simpl; lia.
Qed.

Lemma X6_witness :
  0 <= finish (PyFile (RosPyFileLinePlugin.mk true)) (mkFile "node.py" 1200)
    <= Z.max 2 (divide_round_up 1200 500).
Proof.
  apply (X6_penalty_bounds (PyFile (RosPyFileLinePlugin.mk true))
           (mkFile "node.py" 1200)).
  simpl. lia.
Defined.

Lemma observe_as (pl pl' : plugin) (content : list string) :
  variant pl' = variant pl ->
  flags pl' = zip_with orb (flags pl) (map (fun h => existsb h content) (hits pl)) ->
  observe pl content = pl'.
Proof.
  intros Hv Hf. apply plugin_ext.
  - now rewrite variant_observe.
  - now rewrite flags_observe.
Qed.

(** X7. The plugins with a fixed penalty: dynamic reconfigure, both
    action-server plugins and the Python transform plugin finish with 2
    when some line of the file matches and with 0 otherwise; the launch
    plugin with 1 or 0. *)
Theorem X7_fixed_penalties (content : list string) (f : File) :
  finish (observe (CPPUsingDynamicReconfigure
                     RosCPPUsingDynamicReconfigurePlugin.init) content) f
  = (if existsb dynamic_reconfigure_hit content then 2 else 0)
  /\ finish (observe (CPPActionServer RosCPPActionServerPlugin.init) content) f
     = (if existsb cpp_action_server_hit content then 2 else 0)
  /\ finish (observe (PyUsingTF RosPyUsingTFLinePlugin.init) content) f
     = (if existsb py_tf_hit content then 2 else 0)
  /\ finish (observe (PyActionServer RosPyActionServerLinePlugin.init) content) f
     = (if existsb py_action_server_hit content then 2 else 0)
  /\ finish (observe (LaunchTest RosLaunchTestLinePlugin.init) content) f
     = (if existsb launch_test_hit content then 1 else 0).
Proof.
  rewrite (observe_as _ (CPPUsingDynamicReconfigure
             (RosCPPUsingDynamicReconfigurePlugin.mk
                (existsb dynamic_reconfigure_hit content))) content)
    by reflexivity.
  rewrite (observe_as _ (CPPActionServer
             (RosCPPActionServerPlugin.mk
                (existsb cpp_action_server_hit content))) content)
    by reflexivity.
  rewrite (observe_as _ (PyUsingTF
             (RosPyUsingTFLinePlugin.mk (existsb py_tf_hit content))) content)
    by reflexivity.
  rewrite (observe_as _ (PyActionServer
             (RosPyActionServerLinePlugin.mk
                (existsb py_action_server_hit content))) content)
    by reflexivity.
  rewrite (observe_as _ (LaunchTest
             (RosLaunchTestLinePlugin.mk (existsb launch_test_hit content))) content)
    by reflexivity.
  simpl.
  unfold RosCPPUsingDynamicReconfigurePlugin.finish, RosCPPActionServerPlugin.finish,
    RosPyUsingTFLinePlugin.finish, RosPyActionServerLinePlugin.finish,
    RosLaunchTestLinePlugin.finish; simpl.
  destruct (existsb dynamic_reconfigure_hit content),
    (existsb cpp_action_server_hit content), (existsb py_tf_hit content),
    (existsb py_action_server_hit content), (existsb launch_test_hit content);
    repeat split; reflexivity.
Qed.

(** X8. The two plugins that weigh a file by its size: a C or C++ file
    with a line matching [using namespace ros] or [ros::] costs
    [ceil(lines / 1000)], a Python file with a line matching [rospy]
    costs [ceil(lines / 500)]; without such a line either costs 0; and
    for the same lines of text neither penalty drops when the counted
    line total grows. *)
Theorem X8_size_weighted_penalties (content : list string) (f f' : File) :
  finish (observe (CPPFile RosCPPFileLinePlugin.init) content) f
  = (if existsb cpp_file_hit content then divide_round_up (lines f) 1000 else 0)
  /\ finish (observe (PyFile RosPyFileLinePlugin.init) content) f
     = (if existsb rospy_hit content then divide_round_up (lines f) 500 else 0)
  /\ (lines f <= lines f' ->
      finish (observe (CPPFile RosCPPFileLinePlugin.init) content) f
      <= finish (observe (CPPFile RosCPPFileLinePlugin.init) content) f'
      /\ finish (observe (PyFile RosPyFileLinePlugin.init) content) f
         <= finish (observe (PyFile RosPyFileLinePlugin.init) content) f').
Proof.
  rewrite !(observe_as _ (CPPFile
             (RosCPPFileLinePlugin.mk (existsb cpp_file_hit content))) content)
    by reflexivity.
  rewrite !(observe_as _ (PyFile
             (RosPyFileLinePlugin.mk (existsb rospy_hit content))) content)
    by reflexivity.
  simpl. unfold RosCPPFileLinePlugin.finish, RosPyFileLinePlugin.finish; simpl.
  split; [now destruct (existsb cpp_file_hit content)|].
  split; [now destruct (existsb rospy_hit content)|]. intros Hle.
  assert (divide_round_up (lines f) 1000 <= divide_round_up (lines f') 1000)
    by (unfold divide_round_up; apply Z.div_le_mono; lia).
  assert (divide_round_up (lines f) 500 <= divide_round_up (lines f') 500)
    by (unfold divide_round_up; apply Z.div_le_mono; lia).
  destruct (existsb cpp_file_hit content), (existsb rospy_hit content); simpl; lia.
Qed.

Lemma X8_witness :
  finish (observe (PyFile RosPyFileLinePlugin.init) ["import rospy" ++ nl])
         (mkFile "node.py" 400)
  <= finish (observe (PyFile RosPyFileLinePlugin.init) ["import rospy" ++ nl])
            (mkFile "node.py" 900).
Proof.
  apply (X8_size_weighted_penalties ["import rospy" ++ nl]
           (mkFile "node.py" 400) (mkFile "node.py" 900)).
  simpl. lia.
Defined.

(** X9. Python is counted more heavily than C++: for the same counted
    lines a marked Python file costs at least what a marked C or C++
    file costs, and at most twice as much. *)
Theorem X9_python_weighs_more (f : File) :
  0 <= lines f ->
  finish (CPPFile (RosCPPFileLinePlugin.mk true)) f
  <= finish (PyFile (RosPyFileLinePlugin.mk true)) f
  <= 2 * finish (CPPFile (RosCPPFileLinePlugin.mk true)) f.
Proof.
  intros Hl. simpl.
  unfold RosCPPFileLinePlugin.finish, RosPyFileLinePlugin.finish; simpl.
  pose proof (divide_round_up_ceil (lines f) 1000 ltac:(lia)) as H1.
  pose proof (divide_round_up_ceil (lines f) 500 ltac:(lia)) as H5.
  unfold is_ceil in H1, H5. lia.
Qed.

Lemma X9_witness :
  finish (CPPFile (RosCPPFileLinePlugin.mk true)) (mkFile "a" 1200)
  <= finish (PyFile (RosPyFileLinePlugin.mk true)) (mkFile "a" 1200)
  <= 2 * finish (CPPFile (RosCPPFileLinePlugin.mk true)) (mkFile "a" 1200).
Proof.
  apply (X9_python_weighs_more (mkFile "a" 1200)). simpl. lia.
Defined.

End PenaltyLaws.

(** * Further properties of the classification *)
Section ClassificationLaws.








Lemma omap_step {A B} (g : A -> option B) (x : A) (l : list A) :
  omap g (x :: l) = match g x with Some y => y :: omap g l | None => omap g l end.
Proof. reflexivity. Qed.

Lemma classify_totals (entries : list pygount_child) (c0 : classified) :
  cpp_lines (fold_left classify_child entries c0)
  = cpp_lines c0 + sumZ (map lines (omap native_entry entries))
  /\ py_lines (fold_left classify_child entries c0)
     = py_lines c0 + sumZ (map lines (omap python_entry entries))
  /\ launch_files (fold_left classify_child entries c0)
     = (launch_files c0 ++ omap launch_entry entries)%list
  /\ msg_files (fold_left classify_child entries c0)
     = msg_files c0 + Z.of_nat (length (omap msg_entry entries)).
Proof.
  revert c0. induction entries as [|e entries IH]; intros c0.
  - simpl. rewrite app_nil_r. repeat split; lia.
  - simpl fold_left. destruct (IH (classify_child c0 e)) as (-> & -> & -> & ->).
    clear IH. rewrite !omap_step.
    set (N := omap native_entry entries). set (P := omap python_entry entries).
    set (L := omap launch_entry entries). set (M := omap msg_entry entries).
    destruct e as [language fname code|]; [|simpl; repeat split; lia].
    unfold classify_child, msg_entry, launch_entry, is_msg_name.
    destruct (String.eqb_spec language "C++") as [->|H1].
    { simpl. repeat split; lia. }
    destruct (String.eqb_spec language "C") as [->|H2].
    { simpl. repeat split; lia. }
    assert (native_entry (FileElem language fname code) = None) as ->.
    { simpl. rewrite (bool_decide_eq_false_2 (language ∈ ["C++"; "C"])); [reflexivity|].
      intros Hin; apply elem_of_cons in Hin as [?|Hin];
        [|apply list_elem_of_singleton in Hin]; congruence. }
    destruct (String.eqb_spec language "__unknown__") as [->|H3].
    { simpl orb. cbv iota.
      destruct (String.eqb (last4 fname) ".msg" || String.eqb (last4 fname) ".srv");
        simpl.
      - repeat split; lia.
      - destruct (endswith fname ".launch"); simpl;
          rewrite <- ?app_assoc; repeat split; lia. }
    destruct (String.eqb_spec language "Python") as [->|H4].
    { simpl. repeat split; lia. }
    simpl. rewrite (bool_decide_eq_false_2 (language = "Python")) by exact H4.
    repeat split; lia.
Qed.

Lemma classified_lists (files : list (list pygount_child)) :
  cpp_files (classify files) = omap native_entry (List.hd [] files)
  /\ py_files (classify files) = omap python_entry (List.hd [] files)
  /\ launch_files (classify files) = omap launch_entry (List.hd [] files).
Proof.
  rewrite classify_first.
  destruct (classify_files (List.hd [] files) classified_init) as [-> ->].
  destruct (classify_totals (List.hd [] files) classified_init)
    as (_ & _ & -> & _).
  repeat split.
Qed.

(** X11. What [main] gathers from the pygount report: only the children
    of the first [files] element count; the C and C++ entries, the
    Python entries and the launch entries are kept in report order; the
    two line totals are the sums of the [code] attributes of the kept
    entries; the message counter is the number of unknown-language
    entries named [*.msg] or [*.srv]. *)
Theorem X11_classification (files : list (list pygount_child)) :
  cpp_files (classify files) = omap native_entry (List.hd [] files)
  /\ py_files (classify files) = omap python_entry (List.hd [] files)
  /\ launch_files (classify files) = omap launch_entry (List.hd [] files)
  /\ cpp_lines (classify files) = sumZ (map lines (cpp_files (classify files)))
  /\ py_lines (classify files) = sumZ (map lines (py_files (classify files)))
  /\ msg_files (classify files)
     = Z.of_nat (length (omap msg_entry (List.hd [] files))).
Proof.
  rewrite classify_first.
  destruct (classify_files (List.hd [] files) classified_init) as [-> ->].
  destruct (classify_totals (List.hd [] files) classified_init)
    as (-> & -> & -> & ->).
  simpl. repeat split; lia.
Qed.

Lemma sumZ_not_negative (l : list Z) : Forall (fun z => 0 <= z) l -> 0 <= sumZ l.
Proof. induction 1; simpl; lia. Qed.

Lemma finish_not_negative (pl : plugin) (f : File) :
  0 <= lines f -> 0 <= finish pl f.
Proof.
  intros Hl.
  pose proof (divide_round_up_ceil (lines f) 1000 ltac:(lia)) as H1.
  pose proof (divide_round_up_ceil (lines f) 500 ltac:(lia)) as H5.
  unfold is_ceil in H1, H5.
  destruct pl as [[a]|[a b]|[a]|[a]|[a]|[a]|[a]|[a]]; simpl;
    unfold RosCPPFileLinePlugin.finish, RosCPPUsingTFLinePlugin.finish,
      RosCPPUsingDynamicReconfigurePlugin.finish, RosCPPActionServerPlugin.finish,
      RosPyFileLinePlugin.finish, RosPyUsingTFLinePlugin.finish,
      RosPyActionServerLinePlugin.finish, RosLaunchTestLinePlugin.finish; simpl;
    try destruct a; try destruct b; simpl; lia.
Qed.

Lemma penalties_not_negative (fresh : list plugin) (read : string -> list string)
    (files : list File) :
  Forall (fun f => 0 <= lines f) files ->
  0 <= sumZ (map (plugin_penalties fresh read) files).
Proof.
  intros H. apply sumZ_not_negative, Forall_map.
  eapply Forall_impl; [exact H|]. intros f Hf. simpl.
  unfold plugin_penalties. apply sumZ_not_negative, Forall_map, Forall_forall.
  intros p _. simpl. now apply finish_not_negative.
Qed.

Lemma kept_entries_not_negative (g : pygount_child -> option File)
    (entries : list pygount_child) :
  (forall e f, g e = Some f -> code_not_negative e = true -> 0 <= lines f) ->
  forallb code_not_negative entries = true ->
  Forall (fun f => 0 <= lines f) (omap g entries).
Proof.
  intros Hg Hall. apply Forall_forall. intros f Hf.
  apply list_elem_of_omap in Hf as (e & He & Hge).
  rewrite forallb_forall in Hall.
  apply (Hg e f Hge). apply Hall. now apply list_elem_of_In.
Qed.

(** X12. When no [code] attribute of the pygount report is negative the
    score of a package is at least its dependency term, which is not
    negative: no plugin lowers the score. *)
Theorem X12_score_not_negative (read : string -> list string)
    (files : list (list pygount_child)) (deps : gset (option string)) :
  forallb code_not_negative (List.hd [] files) = true ->
  0 <= dependency_term read (classify files) deps
    <= package_score read (classify files) deps.
Proof.
  intros Hall. rewrite dependency_term_eq, package_score_parts.
  pose proof (divide_round_up_ceil (Z.of_nat (size deps)) 2 ltac:(lia)) as Hc.
  unfold is_ceil in Hc.
  assert (0 <= detector_total read (classify files)) as Hd.
  { unfold detector_total.
    destruct (classified_lists files) as (-> & -> & ->).
    pose proof (penalties_not_negative cpp_plugins read
                  (omap native_entry (List.hd [] files))) as A.
    pose proof (penalties_not_negative py_plugins read
                  (omap python_entry (List.hd [] files))) as B.
    pose proof (penalties_not_negative launch_plugins read
                  (omap launch_entry (List.hd [] files))) as C.
    assert (forall g : pygount_child -> option File,
              (forall e f, g e = Some f -> code_not_negative e = true -> 0 <= lines f) ->
              Forall (fun f => 0 <= lines f) (omap g (List.hd [] files))) as K
      by (intros g Hg; now apply kept_entries_not_negative).
    assert (0 <= sumZ (map (plugin_penalties cpp_plugins read)
                         (omap native_entry (List.hd [] files)))).
    { apply A, K. intros [l n c|] f; simpl; [|discriminate].
      destruct (bool_decide _); [|discriminate]. intros [= <-] Hc'. simpl. lia. }
    assert (0 <= sumZ (map (plugin_penalties py_plugins read)
                         (omap python_entry (List.hd [] files)))).
    { apply B, K. intros [l n c|] f; simpl; [|discriminate].
      destruct (bool_decide _); [|discriminate]. intros [= <-] Hc'. simpl. lia. }
    assert (0 <= sumZ (map (plugin_penalties launch_plugins read)
                         (omap launch_entry (List.hd [] files)))).
    { apply C, K. intros [l n c|] f; simpl; [|discriminate].
      destruct (_ && _); [|discriminate]. intros [= <-] Hc'. simpl. lia. }
    lia. }
  destruct (truthy (cpp_files (classify files)) && truthy (py_files (classify files)));
    lia.
Qed.

Lemma X12_witness :
  0 <= dependency_term (fun _ => ["import rospy" ++ nl])
         (classify [[FileElem "Python" "node.py" 700]]) {[ Some "rospy" ]}
    <= package_score (fun _ => ["import rospy" ++ nl])
         (classify [[FileElem "Python" "node.py" 700]]) {[ Some "rospy" ]}.
Proof.
  apply (X12_score_not_negative (fun _ => ["import rospy" ++ nl])
           [[FileElem "Python" "node.py" 700]] {[ Some "rospy" ]}).
  reflexivity.
Defined.

End ClassificationLaws.

(** * Further properties of the package loop *)
Section PackageLaws.

Lemma sumZ_perm (l l' : list Z) : l ≡ₚ l' -> sumZ l = sumZ l'.
Proof. induction 1; simpl; lia. Qed.

Lemma truthy_perm {A} (l l' : list A) : l ≡ₚ l' -> truthy l = truthy l'.
Proof.
  intros H. pose proof (Permutation_length H) as Hlen.
  destruct l, l'; simpl in *; try reflexivity; discriminate.
Qed.

Lemma classify_perm (entries entries' : list pygount_child)
    (rest rest' : list (list pygount_child)) :
  entries ≡ₚ entries' ->
  cpp_files (classify (entries :: rest)) ≡ₚ cpp_files (classify (entries' :: rest'))
  /\ py_files (classify (entries :: rest)) ≡ₚ py_files (classify (entries' :: rest'))
  /\ launch_files (classify (entries :: rest))
     ≡ₚ launch_files (classify (entries' :: rest'))
  /\ cpp_lines (classify (entries :: rest)) = cpp_lines (classify (entries' :: rest'))
  /\ py_lines (classify (entries :: rest)) = py_lines (classify (entries' :: rest'))
  /\ msg_files (classify (entries :: rest)) = msg_files (classify (entries' :: rest')).
Proof.
  intros H.
  destruct (classified_lists (entries :: rest)) as (Hc & Hp & Hl).
  destruct (classified_lists (entries' :: rest')) as (Hc' & Hp' & Hl').
  simpl List.hd in *.
  assert (cpp_files (classify (entries :: rest))
          ≡ₚ cpp_files (classify (entries' :: rest'))) as Pc
    by (rewrite Hc, Hc'; now apply omap_Permutation).
  assert (py_files (classify (entries :: rest))
          ≡ₚ py_files (classify (entries' :: rest'))) as Pp
    by (rewrite Hp, Hp'; now apply omap_Permutation).
  split; [exact Pc|]. split; [exact Pp|].
  split; [rewrite Hl, Hl'; now apply omap_Permutation|].
  unfold classify.
  destruct (classify_totals entries classified_init) as (-> & -> & _ & ->).
  destruct (classify_totals entries' classified_init) as (-> & -> & _ & ->).
  simpl. repeat split.
  - apply sumZ_perm, Permutation_map. now apply omap_Permutation.
  - apply sumZ_perm, Permutation_map. now apply omap_Permutation.
  - do 2 f_equal. apply Permutation_length. now apply omap_Permutation.
Qed.

Lemma package_score_perm (read : string -> list string) (c c' : classified)
    (deps : gset (option string)) :
  cpp_files c ≡ₚ cpp_files c' -> py_files c ≡ₚ py_files c' ->
  launch_files c ≡ₚ launch_files c' ->
  package_score read c deps = package_score read c' deps.
Proof.
  intros Hc Hp Hl. rewrite !package_score_parts. unfold detector_total.
  rewrite (truthy_perm _ _ Hc), (truthy_perm _ _ Hp).
  rewrite (sumZ_perm _ _ (Permutation_map (plugin_penalties cpp_plugins read) Hc)).
  rewrite (sumZ_perm _ _ (Permutation_map (plugin_penalties py_plugins read) Hp)).
  rewrite (sumZ_perm _ _ (Permutation_map (plugin_penalties launch_plugins read) Hl)).
  reflexivity.
Qed.

(** X13. The order in which pygount lists the files of a package does
    not matter, nor do [files] elements after the first: the package
    gets the same row, or none, for any reordering of the entries.  No
    plugin state passes from one file to the next. *)
Theorem X13_file_order_is_irrelevant (args : arguments)
    (read : string -> list string) (path : string) (catkin_ignore : bool)
    (children : list xml_child) (entries entries' : list pygount_child)
    (rest rest' : list (list pygount_child)) :
  entries ≡ₚ entries' ->
  scan_package args read
    (mkPackageDir path catkin_ignore children (entries :: rest))
  = scan_package args read
      (mkPackageDir path catkin_ignore children (entries' :: rest')).
Proof.
  intros H.
  destruct (classify_perm entries entries' rest rest' H)
    as (Pc & Pp & Pl & Hcl & Hpl & Hm).
  unfold scan_package. cbv zeta.
  cbn [manifest pygount_files catkin_ignore_exists package_path].
  destruct (pkg_name (parse_manifest children)) as [n|]; [|reflexivity].
  destruct (filtered_out args n); [reflexivity|].
  rewrite (package_score_perm read _ _ _ Pc Pp Pl).
  rewrite (Permutation_length Pc), (Permutation_length Pp).
  rewrite Hcl, Hpl, Hm. reflexivity.
Qed.

Lemma X13_witness :
  scan_package (mkArgs [] []) (fun _ => ["import rospy" ++ nl])
    (mkPackageDir "/ws/p" false [Element "name" (Some "p")]
       [[FileElem "Python" "a.py" 10; FileElem "C++" "b.cpp" 20]])
  = scan_package (mkArgs [] []) (fun _ => ["import rospy" ++ nl])
      (mkPackageDir "/ws/p" false [Element "name" (Some "p")]
         [[FileElem "C++" "b.cpp" 20; FileElem "Python" "a.py" 10]; []]).
Proof.
  apply (X13_file_order_is_irrelevant (mkArgs [] [])
           (fun _ => ["import rospy" ++ nl]) "/ws/p" false
           [Element "name" (Some "p")]
           [FileElem "Python" "a.py" 10; FileElem "C++" "b.cpp" 20]
           [FileElem "C++" "b.cpp" 20; FileElem "Python" "a.py" 10] [] [[]]).
  apply perm_swap.
Defined.

(** X14. The order of the manifest's children does not matter for the
    dependencies: any reordering gives the same two counters and the
    same set of names.  (The name does depend on the order.) *)
Theorem X14_declaration_order_is_irrelevant (cs cs' : list xml_child) :
  cs ≡ₚ cs' ->
  build_depends (parse_manifest cs) = build_depends (parse_manifest cs')
  /\ exec_depends (parse_manifest cs) = exec_depends (parse_manifest cs')
  /\ depends (parse_manifest cs) = depends (parse_manifest cs').
Proof.
  intros H. rewrite !build_depends_count, !exec_depends_count, !depends_union.
  unfold build_decls, exec_decls, dep_texts. repeat split.
  - f_equal. apply Permutation_length. now apply omap_Permutation.
  - f_equal. apply Permutation_length. now apply omap_Permutation.
  - apply list_to_set_perm_L. now apply omap_Permutation.
Qed.

Lemma X14_witness :
  depends (parse_manifest
             [Element "depend" (Some "a"); Element "build_depend" (Some "b")])
  = depends (parse_manifest
               [Element "build_depend" (Some "b"); Element "depend" (Some "a")]).
Proof.
  apply (X14_declaration_order_is_irrelevant
           [Element "depend" (Some "a"); Element "build_depend" (Some "b")]
           [Element "build_depend" (Some "b"); Element "depend" (Some "a")]).
  apply perm_swap.
Defined.

Lemma manifest_child_ignored (st : manifest_state) (c : xml_child) :
  declares ["name"; "build_depend"; "exec_depend"; "depend"] c = None ->
  manifest_child st c = st.
Proof.
  destruct c as [tag text|]; [|reflexivity]. simpl.
  destruct (bool_decide_reflect
              (tag ∈ ["name"; "build_depend"; "exec_depend"; "depend"]))
    as [|Hn]; [discriminate|]. intros _.
  repeat match goal with
         | |- context [String.eqb tag ?t] =>
             destruct (String.eqb_spec tag t) as [->|];
             [exfalso; apply Hn; rewrite !elem_of_cons; auto|]
         end.
  reflexivity.
Qed.

(** X15. Children of the manifest root other than [name],
    [build_depend], [exec_depend] and [depend] elements (other tags,
    comments, processing instructions) change nothing: the manifest
    reads the same with or without them. *)
Theorem X15_other_children_are_ignored (pre post : list xml_child)
    (c : xml_child) :
  declares ["name"; "build_depend"; "exec_depend"; "depend"] c = None ->
  parse_manifest (pre ++ c :: post) = parse_manifest (pre ++ post).
Proof.
  intros H. unfold parse_manifest. rewrite !fold_left_app. simpl.
  now rewrite manifest_child_ignored.
Qed.

Lemma X15_witness :
  parse_manifest [Element "name" (Some "p"); Element "test_depend" (Some "gtest");
                  Element "depend" (Some "a")]
  = parse_manifest [Element "name" (Some "p"); Element "depend" (Some "a")].
Proof.
  apply (X15_other_children_are_ignored [Element "name" (Some "p")]
           [Element "depend" (Some "a")] (Element "test_depend" (Some "gtest"))).
  reflexivity.
Defined.

Lemma skipped_package_has_no_row (args : arguments) (read : string -> list string)
    (p : package_dir) (pre post : list package_dir) :
  (forall r, scan_package args read p <> Appended r) ->
  report args read (pre ++ p :: post) = report args read (pre ++ post).
Proof.
  intros H. unfold report, packages.
  change (p :: post) with ([p] ++ post)%list. rewrite !omap_app. simpl.
  destruct (scan_package args read p) as [d| |r]; try reflexivity.
  now destruct (H r).
Qed.

(** X16. A package whose manifest has no [name] element, or whose last
    [name] element is empty, is skipped whatever the arguments: it gets
    no row, and the line saying so, with its directory, is printed. *)
Theorem X16_package_without_name (args : arguments) (read : string -> list string)
    (p : package_dir) (pre post : list package_dir) :
  default None (last (name_texts (manifest p))) = None ->
  scan_package args read p
  = NoName ("Could not find package name in directory '"
            ++ package_path p ++ "', skipping")
  /\ report args read (pre ++ p :: post) = report args read (pre ++ post)
  /\ ("Could not find package name in directory '" ++ package_path p
      ++ "', skipping") ∈ (main args read (pre ++ p :: post)).1.
Proof.
  intros H. rewrite <- pkg_name_last in H.
  assert (scan_package args read p
          = NoName ("Could not find package name in directory '"
                    ++ package_path p ++ "', skipping")) as Hs
    by (unfold scan_package; cbv zeta; now rewrite H).
  split; [exact Hs|]. split.
  - apply skipped_package_has_no_row. intros r. rewrite Hs. discriminate.
  - unfold main, diagnostics. simpl. apply elem_of_app. left.
    apply list_elem_of_omap. exists p. split; [|now rewrite Hs].
    apply elem_of_app. right. apply list_elem_of_here.
Qed.

Lemma X16_witness :
  scan_package (mkArgs [] []) (fun _ => [])
    (mkPackageDir "/ws/anon" false
       [Element "name" (Some "first"); Element "name" None] [])
  = NoName "Could not find package name in directory '/ws/anon', skipping".
Proof.
  apply (X16_package_without_name (mkArgs [] []) (fun _ => [])
           (mkPackageDir "/ws/anon" false
              [Element "name" (Some "first"); Element "name" None] []) [] []).
  reflexivity.
Defined.

End PackageLaws.

(** * Further properties of the report *)
Section ReportLaws.

Lemma insert_sorted_perm (x : string) (l : list string) :
  insert_sorted x l ≡ₚ x :: l.
Proof.
  induction l as [|y l IH]; simpl; [reflexivity|].
  destruct (String.leb x y); [reflexivity|].
  rewrite IH. apply perm_swap.
Qed.

Lemma insert_sorted_sorted (x : string) (l : list string) :
  Sorted row_le l -> Sorted row_le (insert_sorted x l).
Proof.
  induction l as [|y l IH]; intros Hs; simpl.
  - repeat constructor.
  - destruct (String.leb x y) eqn:E.
    + constructor; [exact Hs|]. constructor. exact E.
    + apply Sorted_inv in Hs as [Hs Hhd].
      constructor; [apply IH, Hs|].
      assert (row_le y x) as Hyx.
      { unfold row_le. destruct (String.leb_total x y) as [H|H]; congruence. }
      destruct l as [|z l]; simpl.
      * constructor. exact Hyx.
      * destruct (String.leb x z); constructor; [exact Hyx|].
        now apply HdRel_inv in Hhd.
Qed.

Lemma sorted_perm (l : list string) : sorted l ≡ₚ l.
Proof.
  induction l as [|x l IH]; simpl; [reflexivity|].
  unfold sorted in *. simpl. now rewrite insert_sorted_perm, IH.
Qed.

Lemma sorted_sorted (l : list string) : Sorted row_le (sorted l).
Proof.
  induction l as [|x l IH]; simpl; [constructor|].
  now apply insert_sorted_sorted.
Qed.

Lemma row_le_trans : Transitive row_le.
Proof.
  intros a b c Hab Hbc. unfold row_le in *.
  pose proof (String.le_po) as [[_ Ht] _].
  apply Is_true_true. apply (Ht a b c); apply Is_true_true; assumption.
Qed.

(** X17. The rows are printed in order and none is lost, added or
    repeated by the sort: the printed rows are a permutation of the rows
    the loop appended, and each printed row is at most, in byte order,
    every row printed after it. *)
Theorem X17_report_is_a_sorted_permutation (args : arguments)
    (read : string -> list string) (dirs : list package_dir) :
  report args read dirs ≡ₚ packages args read dirs
  /\ StronglySorted row_le (report args read dirs)
  /\ length (report args read dirs) = length (packages args read dirs).
Proof.
  unfold report. split; [apply sorted_perm|]. split.
  - apply Sorted_StronglySorted; [apply row_le_trans | apply sorted_sorted].
  - apply Permutation_length, sorted_perm.
Qed.

Lemma appended_has_name (args : arguments) (read : string -> list string)
    (p : package_dir) (r : row) :
  scan_package args read p = Appended r ->
  exists n, pkg_name (parse_manifest (manifest p)) = Some n
            /\ filtered_out args n = false.
Proof.
  unfold scan_package. cbv zeta.
  destruct (pkg_name (parse_manifest (manifest p))) as [n|]; [|discriminate].
  destruct (filtered_out args n) eqn:Ef; [discriminate|].
  intros _. now exists n.
Qed.

(** X18. A line is among the printed rows exactly when it is the
    formatted row of some package of the tree that has a name and passes
    the filters. *)
Theorem X18_rows_come_from_packages (args : arguments)
    (read : string -> list string) (dirs : list package_dir) (x : string) :
  x ∈ report args read dirs
  <-> exists p n,
        p ∈ dirs
        /\ pkg_name (parse_manifest (manifest p)) = Some n
        /\ filtered_out args n = false
        /\ exists r, scan_package args read p = Appended r /\ x = format_row r.
Proof.
  unfold report. rewrite (sorted_perm (packages args read dirs)).
  unfold packages. rewrite list_elem_of_omap. split.
  - intros (p & Hp & Hx).
    destruct (scan_package args read p) as [d| |r] eqn:Es; try discriminate.
    injection Hx as <-.
    destruct (appended_has_name args read p r Es) as (n & Hn & Hf).
    exists p, n. repeat split; try assumption. now exists r.
  - intros (p & n & Hp & _ & _ & r & Hr & ->). exists p. split; [exact Hp|].
    now rewrite Hr.
Qed.

Lemma outcome_counts (args : arguments) (read : string -> list string)
    (dirs : list package_dir) :
  (length (diagnostics args read dirs) + length (packages args read dirs)
   + length (omap (fun p => match scan_package args read p with
                            | Filtered => Some p
                            | _ => None
                            end) dirs))%nat
  = length dirs.
Proof.
  unfold diagnostics, packages.
  induction dirs as [|p dirs IH]; [reflexivity|].
  rewrite !omap_step.
  destruct (scan_package args read p) as [d| |r]; simpl; lia.
Qed.

(** X19. Every package directory is accounted for once: the diagnostics
    and the rows together are never more than the directories, and
    with neither [--exclusive] nor [--exclude] given they are exactly as
    many. *)
Theorem X19_every_package_is_accounted_for (args : arguments)
    (read : string -> list string) (dirs : list package_dir) :
  (length (diagnostics args read dirs) + length (report args read dirs)
   <= length dirs)%nat
  /\ (exclusive args = [] -> exclude args = [] ->
      (length (diagnostics args read dirs) + length (report args read dirs))%nat
      = length dirs)
  /\ length (main args read dirs).1
     = S (length (diagnostics args read dirs) + length (report args read dirs)).
Proof.
  pose proof (outcome_counts args read dirs) as Hc.
  assert (length (report args read dirs) = length (packages args read dirs)) as Hr
    by (apply Permutation_length, sorted_perm).
  split; [lia|]. split.
  - intros He Hx.
    assert (omap (fun p => match scan_package args read p with
                           | Filtered => Some p
                           | _ => None
                           end) dirs = []) as Hf.
    { clear Hc Hr. induction dirs as [|p dirs IH]; [reflexivity|].
      rewrite omap_step, IH.
      assert (scan_package args read p <> Filtered) as Hn.
      { unfold scan_package. cbv zeta.
        destruct (pkg_name (parse_manifest (manifest p))) as [n|]; [|discriminate].
        assert (filtered_out args n = false) as ->; [|discriminate].
        apply not_true_is_false. rewrite filtered_out_iff, He, Hx.
        intros [H|[H _]]; [inversion H | now apply H]. }
      destruct (scan_package args read p); congruence. }
    rewrite Hf in Hc. simpl in Hc. lia.
  - unfold main. simpl. rewrite length_app. simpl. lia.
Qed.

Lemma X19_witness :
  (length (diagnostics (mkArgs [] []) (fun _ => [])
             [mkPackageDir "/a" false [Element "name" (Some "a")] [];
              mkPackageDir "/b" false [] []])
   + length (report (mkArgs [] []) (fun _ => [])
               [mkPackageDir "/a" false [Element "name" (Some "a")] [];
                mkPackageDir "/b" false [] []]))%nat
  = 2%nat.
Proof.
  apply (X19_every_package_is_accounted_for (mkArgs [] []) (fun _ => [])
           [mkPackageDir "/a" false [Element "name" (Some "a")] [];
            mkPackageDir "/b" false [] []]); reflexivity.
Defined.

(** X20. A higher score never gives a smaller size, the ignore marker
    never gives a larger one, and the size is always one of [S], [M]
    and [L]. *)
Theorem X20_size_is_monotone (catkin_ignore : bool) (score score' : Z) :
  score <= score' ->
  (size_rank (package_size catkin_ignore score)
   <= size_rank (package_size catkin_ignore score'))%nat
  /\ (size_rank (package_size true score)
      <= size_rank (package_size catkin_ignore score))%nat
  /\ package_size catkin_ignore score ∈ ["S"; "M"; "L"].
Proof.
  intros Hle. unfold package_size.
  destruct catkin_ignore; simpl.
  - repeat split; try lia. apply list_elem_of_here.
  - destruct (Z.ltb_spec score 10), (Z.ltb_spec score 30),
      (Z.ltb_spec score' 10), (Z.ltb_spec score' 30);
      simpl; repeat split; try lia;
      try (vm_compute; lia); rewrite !elem_of_cons; auto.
Qed.

Lemma X20_witness :
  (size_rank (package_size false 12) <= size_rank (package_size false 31))%nat.
Proof.
  apply (X20_size_is_monotone false 12 31). lia.
Defined.

End ReportLaws.

(** * Further properties of the patterns *)
Section PatternLaws.
Import Re.

(** X21. Searching a pattern made of literal bytes is substring search:
    there is a match exactly when the line is some bytes, the pattern,
    and some more bytes. *)
Theorem X21_literal_search_is_substring (p l : string) :
  search (compile p) l = true <-> exists pre post, l = pre ++ p ++ post.
Proof. apply search_compile_iff. Qed.

Lemma lower_idempotent (c : ascii) : lower (lower c) = lower c.
Proof. destruct c as [[] [] [] [] [] [] [] []]; reflexivity. Qed.

Lemma lower_newline (c : ascii) :
  Ascii.eqb (lower c) newline = Ascii.eqb c newline.
Proof. destruct c as [[] [] [] [] [] [] [] []]; reflexivity. Qed.

Lemma strip_lower (p s : string) :
  strip true p (lower_s s) = option_map lower_s (strip true p s).
Proof.
  revert s. induction p as [|a p IH]; intros s; simpl; [reflexivity|].
  destruct s as [|b s]; simpl; [reflexivity|].
  unfold byte_eqb. rewrite lower_idempotent.
  destruct (Ascii.eqb (lower a) (lower b)); [apply IH | reflexivity].
Qed.

Lemma at_eol_lower (s : string) : at_eol (lower_s s) = at_eol s.
Proof.
  destruct s as [|c [|d s]]; simpl; try reflexivity. apply lower_newline.
Qed.

Lemma match_here_star (ic : bool) (r : list atom) (s : string) :
  match_here ic (DotStar :: r) s
  = match_here ic r s
    || match s with
       | EmptyString => false
       | String c s' =>
           negb (Ascii.eqb c newline) && match_here ic (DotStar :: r) s'
       end.
Proof. destruct s; reflexivity. Qed.

Lemma match_here_lower (r : list atom) (s : string) :
  match_here true r (lower_s s) = match_here true r s.
Proof.
  revert s. induction r as [|a r IH]; intros s; [reflexivity|].
  destruct a as [p| |].
  - simpl. rewrite strip_lower.
    destruct (strip true p s) as [s'|]; simpl; [apply IH | reflexivity].
  - induction s as [|c s IHs].
    + reflexivity.
    + rewrite (match_here_star true r (String c s)).
      rewrite (match_here_star true r (lower_s (String c s))).
      rewrite IH. simpl lower_s. cbv iota. now rewrite lower_newline, IHs.
  - simpl. now rewrite at_eol_lower, IH.
Qed.

Lemma search_from_lower (r : list atom) (s : string) :
  search_from true r (lower_s s) = search_from true r s.
Proof.
  induction s as [|c s IH].
  - reflexivity.
  - change (search_from true r (lower_s (String c s)))
      with (match_here true r (lower_s (String c s))
            || search_from true r (lower_s s)).
    rewrite IH, match_here_lower. reflexivity.
Qed.

(** X22. The patterns compiled with [re.IGNORECASE] do not see the case
    of ASCII letters: two lines that differ only in it are both matched
    or both not, so the two action-server plugins and the launch plugin
    give them the same flag. *)
Theorem X22_ignorecase_ignores_case (re : regex) (l l' : string) :
  ignorecase re = true ->
  lower_s l = lower_s l' ->
  search re l = search re l'.
Proof.
  intros Hic Hl. unfold search. rewrite Hic.
  rewrite <- (search_from_lower (atoms re) l), <- (search_from_lower (atoms re) l').
  now rewrite Hl.
Qed.

Lemma X22_witness :
  search RosLaunchTestLinePlugin.launch_test_re ("  <Test name=x/>" ++ nl)
  = search RosLaunchTestLinePlugin.launch_test_re ("  <TEST NAME=X/>" ++ nl).
Proof.
  apply (X22_ignorecase_ignores_case RosLaunchTestLinePlugin.launch_test_re
           ("  <Test name=x/>" ++ nl) ("  <TEST NAME=X/>" ++ nl));
    reflexivity.
Defined.

End PatternLaws.

(** * Further properties of the row format *)
Section FormatLaws.

Lemma to_int_proper (z : Z) : Z.to_int z <> Decimal.Pos Decimal.Nil
                              /\ Z.to_int z <> Decimal.Neg Decimal.Nil.
Proof.
  destruct z as [|p|p]; simpl; split; try discriminate;
    intros [= H]; now apply (DecimalPos.Unsigned.to_uint_nonnil p).
Qed.

(** X23. The decimal text [%d] writes for a counter reads back as that
    counter, so different counters never print alike. *)
Theorem X23_counters_read_back (z z' : Z) :
  parse_d (fmt_d z) = Some z /\ (fmt_d z = fmt_d z' -> z = z').
Proof.
  assert (forall y, parse_d (fmt_d y) = Some y) as H.
  { intros y. unfold parse_d, fmt_d.
    destruct (to_int_proper y) as [Hp Hn].
    rewrite (NilZero.isi _ Hp Hn). simpl. now rewrite DecimalZ.of_to. }
  split; [apply H|]. intros E.
  pose proof (H z) as Hz. rewrite E, H in Hz. congruence.
Qed.

Lemma X23_witness : parse_d (fmt_d 500) = Some 500 /\ 500 = 500.
Proof.
  split; [apply (X23_counters_read_back 500 500)|].
  apply (X23_counters_read_back 500 500). reflexivity.
Defined.

End FormatLaws.

(** * Further properties of single patterns and single files *)
Section FileLaws.
Import Re.

(** X24. The pattern [import tf$] matches a line exactly when the line
    ends with [import tf], or with [import tf] and the final newline:
    nothing but that newline may follow. *)
Theorem X24_import_tf_ends_the_line (l : string) :
  search RosPyUsingTFLinePlugin.tf_import_re l = true
  <-> exists pre, l = pre ++ "import tf" \/ l = pre ++ "import tf" ++ nl.
Proof.
  unfold search, RosPyUsingTFLinePlugin.tf_import_re; simpl atoms; simpl ignorecase.
  assert (forall s, match_here false [Lit "import tf"; Eol] s = true
                    <-> s = "import tf" \/ s = "import tf" ++ nl) as Hhere.
  { intros s.
    change (match_here false [Lit "import tf"; Eol] s)
      with (match strip false "import tf" s with
            | Some r => at_eol r && true
            | None => false
            end).
    split.
    - destruct (strip false "import tf" s) as [r|] eqn:E; [|discriminate].
      apply strip_sound in E. subst s. rewrite andb_true_r.
      destruct r as [|c [|d r]]; simpl at_eol; try discriminate.
      + now left.
      + intros H. apply Ascii.eqb_eq in H. subst c. now right.
    - intros [->| ->]; reflexivity. }
  split.
  - induction l as [|a l IH].
    + change (search_from false [Lit "import tf"; Eol] "")
        with (match_here false [Lit "import tf"; Eol] "" || false).
      rewrite orb_false_r.
      intros H. apply Hhere in H. exists "". exact H.
    + change (search_from false [Lit "import tf"; Eol] (String a l))
        with (match_here false [Lit "import tf"; Eol] (String a l)
              || search_from false [Lit "import tf"; Eol] l).
      intros H. apply orb_true_iff in H as [H|H].
      * apply Hhere in H. exists "". exact H.
      * destruct (IH H) as (pre & [->| ->]); exists (String a pre); tauto.
  - intros (pre & [->| ->]); apply search_from_skip, search_from_here, Hhere; tauto.
Qed.

Lemma finish_capped (pl : plugin) (f : File) :
  0 <= lines f -> 0 <= finish pl f <= penalty_cap pl f.
Proof.
  intros Hl.
  pose proof (divide_round_up_ceil (lines f) 1000 ltac:(lia)) as H1.
  pose proof (divide_round_up_ceil (lines f) 500 ltac:(lia)) as H5.
  unfold is_ceil in H1, H5.
  destruct pl as [[a]|[a b]|[a]|[a]|[a]|[a]|[a]|[a]]; simpl;
    unfold RosCPPFileLinePlugin.finish, RosCPPUsingTFLinePlugin.finish,
      RosCPPUsingDynamicReconfigurePlugin.finish, RosCPPActionServerPlugin.finish,
      RosPyFileLinePlugin.finish, RosPyUsingTFLinePlugin.finish,
      RosPyActionServerLinePlugin.finish, RosLaunchTestLinePlugin.finish; simpl;
    try destruct a; try destruct b; simpl; lia.
Qed.

Lemma penalty_cap_observe (pl : plugin) (content : list string) (f : File) :
  penalty_cap (observe pl content) f = penalty_cap pl f.
Proof.
  pose proof (variant_observe pl content) as H.
  destruct pl, (observe _ content); simpl in *; try discriminate; reflexivity.
Qed.

(** X25. What one file can add to the score, whatever it contains, when
    its counted lines are not negative: a C or C++ file between 0 and
    [ceil(lines / 1000) + 6], a Python file between 0 and
    [ceil(lines / 500) + 4], a launch file 0 or 1. *)
Theorem X25_file_penalty_bounds (read : string -> list string) (f : File) :
  0 <= lines f ->
  0 <= plugin_penalties cpp_plugins read f <= divide_round_up (lines f) 1000 + 6
  /\ 0 <= plugin_penalties py_plugins read f <= divide_round_up (lines f) 500 + 4
  /\ 0 <= plugin_penalties launch_plugins read f <= 1.
Proof.
  intros Hl. unfold plugin_penalties, cpp_plugins, py_plugins, launch_plugins.
  simpl map. unfold sumZ. simpl foldr.
  repeat match goal with
         | |- context [finish (observe ?p ?c) f] =>
             let H := fresh "B" in
             pose proof (finish_capped (observe p c) f Hl) as H;
             rewrite penalty_cap_observe in H; simpl penalty_cap in H;
             generalize dependent (finish (observe p c) f); intros
         end.
  lia.
Qed.

Lemma X25_witness :
  0 <= plugin_penalties cpp_plugins
         (fun _ => ["ros::init(argc, argv);" ++ nl; "tf::Transform t;" ++ nl])
         (mkFile "a.cpp" 2500)
    <= divide_round_up 2500 1000 + 6.
Proof.
  apply (X25_file_penalty_bounds
           (fun _ => ["ros::init(argc, argv);" ++ nl; "tf::Transform t;" ++ nl])
           (mkFile "a.cpp" 2500)).
  simpl. lia.
Defined.

End FileLaws.

(** ** The patterns on sample lines *)

Example action_server_any_case :
  Re.search RosCPPActionServerPlugin.action_server_re
    ("  ACTIONLIB::Simpleactionserver<Fib> as_;" ++ nl) = true.
Proof. reflexivity. Qed.

Example action_server_not_across_newline :
  Re.search RosCPPActionServerPlugin.action_server_re
    ("actionlib::" ++ nl ++ "Server") = false.
Proof. reflexivity. Qed.

Example import_tf_at_end_of_line :
  Re.search RosPyUsingTFLinePlugin.tf_import_re ("import tf" ++ nl) = true
  /\ Re.search RosPyUsingTFLinePlugin.tf_import_re "import tf" = true
  /\ Re.search RosPyUsingTFLinePlugin.tf_import_re ("import tf2_ros" ++ nl) = false.
Proof. repeat split; reflexivity. Qed.

Example launch_test_any_case :
  Re.search RosLaunchTestLinePlugin.launch_test_re ("  <TEST pkg=x />" ++ nl) = true.
Proof. reflexivity. Qed.

Example tf2_ros_is_not_tf :
  tf_hit ("tf2_ros::Buffer b;" ++ nl) = false
  /\ tf2_hit ("tf2_ros::Buffer b;" ++ nl) = true.
Proof. split; reflexivity. Qed.

Example report_is_sorted :
  sorted ["zed,0,0,0,0,0,0,0,S"; "alpha,0,0,0,0,0,0,0,S"]
  = ["alpha,0,0,0,0,0,0,0,S"; "zed,0,0,0,0,0,0,0,S"].
Proof. reflexivity. Qed.
